(** * codebase-to-prompt: the signature extractor and the directory flatteners

    A shallow embedding of the three scripts of the repository:
    - [scrape_api_only_PYTHON.py]: [remove_comments_docstrings_and_bodies]
      (the passes [remove_docstrings] and [FunctionBodyRemover]) and
      [process_file];
    - [app.py]: the command-line check and [extract_codebase_content];
    - [files_only.py]: [extract_codebase_content] with its name filters, and
      the command line handled by [argparse].

    The syntax tree is the one of Python's [ast] module, cut down to what the
    two passes can tell apart.  The passes mutate the tree in place; the tree
    that [ast.parse] returns shares no statement node between two parents and
    every [ast.Pass()] is a fresh node, so the passes are written here as
    functions from trees to trees. *)

From Stdlib Require Import String Ascii List Bool Arith Lia.
From stdpp Require Import base option list strings gmap.
Import ListNotations.
Local Open Scope string_scope.
Local Open Scope list_scope.
Set Warnings "-register-all".
Set Default Proof Using "Type".

(** ** The syntax tree *)

Module Ast.

(** [ast.Constant]: the value of a literal.  [isinstance(e, ast.Str)] holds
    of a [Constant] node whose value is a [str], and of nothing else: not of a
    bytes literal and not of an f-string (a [JoinedStr] node). *)
Inductive constant : Type :=
| CStr (s : string)
| CBytes (s : string)
| CNum (n : Z)
| CBool (b : bool)
| CNone
| CEllipsis.

(** Expressions.  No expression node of Python's grammar has a statement
    below it (the body of a lambda is an expression), so neither pass can
    change an expression; the passes only ask whether one is a string
    literal. *)
Inductive expr : Type :=
| Constant (value : constant)
| Name (id : string)
| Attribute (value : expr) (attr : string)
| Call (func : expr) (args : list expr)
| JoinedStr (pieces : list string)
| OtherExpr (text : string).

Record arg : Type := mk_arg {
  arg_name : string;
  annotation : option expr
}.

Record arguments : Type := mk_arguments {
  posonlyargs : list arg;
  args : list arg;
  vararg : option arg;
  kwonlyargs : list arg;
  kw_defaults : list (option expr);
  kwarg : option arg;
  defaults : list expr
}.

(** Statements.  [FunctionDef], [AsyncFunctionDef] and [ClassDef] are the
    three kinds the passes name.  [Simple] stands for the statements with no
    statement below them ([Return], [Assign], [Import], ...), and [Compound]
    for those with blocks of statements that are neither a function nor a
    class ([If], [For], [While], [With], [Try] with the bodies of its
    handlers, [Match] with the bodies of its cases): both passes reach the
    blocks of such a node through the generic traversal of its fields
    ([generic_visit], [ast.iter_child_nodes]) and never name the kind. *)
Inductive stmt : Type :=
| FunctionDef (name : string) (fargs : arguments) (body : list stmt)
    (decorator_list : list expr) (returns : option expr)
| AsyncFunctionDef (name : string) (fargs : arguments) (body : list stmt)
    (decorator_list : list expr) (returns : option expr)
| ClassDef (name : string) (bases : list expr) (keywords : list (string * expr))
    (body : list stmt) (decorator_list : list expr)
| Expr (value : expr)
| Pass
| Simple (kind : string) (operands : list expr)
| Compound (kind : string) (operands : list expr) (blocks : list (list stmt)).

(** [ast.Module]. *)
Inductive py_module : Type :=
| PyModule (body : list stmt).

Definition module_body (m : py_module) : list stmt :=
  match m with PyModule body => body end.

(** Induction over statements with the hypotheses for the nested lists. *)
Section StmtInd.
Variable P : stmt -> Prop.
Hypothesis HFun : forall n a body d r,
  Forall P body -> P (FunctionDef n a body d r).
Hypothesis HAsync : forall n a body d r,
  Forall P body -> P (AsyncFunctionDef n a body d r).
Hypothesis HClass : forall n b k body d,
  Forall P body -> P (ClassDef n b k body d).
Hypothesis HExpr : forall e, P (Expr e).
Hypothesis HPass : P Pass.
Hypothesis HSimple : forall k ops, P (Simple k ops).
Hypothesis HCompound : forall k ops blocks,
  Forall (Forall P) blocks -> P (Compound k ops blocks).

Fixpoint stmt_nested_ind (s : stmt) : P s :=
  let fix stmts (l : list stmt) : Forall P l :=
    match l with
    | [] => @List.Forall_nil _ P
    | x :: l' => @List.Forall_cons _ P x _ (stmt_nested_ind x) (stmts l')
    end in
  let fix blocks (bs : list (list stmt)) : Forall (Forall P) bs :=
    match bs with
    | [] => @List.Forall_nil _ (Forall P)
    | b :: bs' => @List.Forall_cons _ (Forall P) b _ (stmts b) (blocks bs')
    end in
  match s with
  | FunctionDef n a body d r => HFun n a body d r (stmts body)
  | AsyncFunctionDef n a body d r => HAsync n a body d r (stmts body)
  | ClassDef n b k body d => HClass n b k body d (stmts body)
  | Expr e => HExpr e
  | Pass => HPass
  | Simple k ops => HSimple k ops
  | Compound k ops bs => HCompound k ops bs (blocks bs)
  end.
End StmtInd.

(** *** The tests the passes make on a node *)

(** [isinstance(node, (ast.FunctionDef, ast.AsyncFunctionDef))]. *)
Definition is_function_def (s : stmt) : bool :=
  match s with
  | FunctionDef _ _ _ _ _ | AsyncFunctionDef _ _ _ _ _ => true
  | _ => false
  end.

(** [isinstance(e, ast.Str)], as the interpreters that have both [ast.Str]
    and [ast.unparse] answer it (Python 3.9 to 3.13): [ast.Str] is kept there
    as an alias that tests for a [Constant] holding a [str]. *)
Definition is_Str (e : expr) : bool :=
  match e with
  | Constant (CStr _) => true
  | _ => false
  end.

(** [isinstance(s, ast.Expr) and isinstance(s.value, ast.Str)]. *)
Definition is_docstring_stmt (s : stmt) : bool :=
  match s with
  | Expr e => is_Str e
  | _ => false
  end.

(** ** Pass 1: [remove_docstrings] *)

(** [if node.body and <first statement is a string literal>: node.body.pop(0)].
    One statement at most is removed. *)
Definition pop_docstring (body : list stmt) : list stmt :=
  match body with
  | s :: rest => if is_docstring_stmt s then rest else body
  | [] => body
  end.

(** [remove_docstrings(node)] on a statement: the [pop] on the node's own
    body when the node is a function or a class, then the recursion into every
    child ([ast.iter_child_nodes] runs over the body as the [pop] left it).
    The children that are expressions, arguments or keywords are visited by the
    code as well; none of them is a function, a class or a module, and none has
    one below it, so the visit does nothing to them. *)
Fixpoint remove_docstrings_stmt (s : stmt) : stmt :=
  match s with
  | FunctionDef n a body d r =>
      FunctionDef n a (map remove_docstrings_stmt (pop_docstring body)) d r
  | AsyncFunctionDef n a body d r =>
      AsyncFunctionDef n a (map remove_docstrings_stmt (pop_docstring body)) d r
  | ClassDef n b k body d =>
      ClassDef n b k (map remove_docstrings_stmt (pop_docstring body)) d
  | Compound k ops blocks =>
      Compound k ops (map (map remove_docstrings_stmt) blocks)
  | Expr _ | Pass | Simple _ _ => s
  end.

(** [remove_docstrings(parsed_ast)]: the same on the module node. *)
Definition remove_docstrings (m : py_module) : py_module :=
  match m with
  | PyModule body => PyModule (map remove_docstrings_stmt (pop_docstring body))
  end.

(** ** Pass 2: [FunctionBodyRemover] *)

Module FunctionBodyRemover.

(** [node.body = [ast.Pass()]; return node], the body of both
    [visit_FunctionDef] and [visit_AsyncFunctionDef]. *)
Definition visit_FunctionDef (node : stmt) : stmt :=
  match node with
  | FunctionDef n a _ d r => FunctionDef n a [Pass] d r
  | _ => node
  end.

Definition visit_AsyncFunctionDef (node : stmt) : stmt :=
  match node with
  | AsyncFunctionDef n a _ d r => AsyncFunctionDef n a [Pass] d r
  | _ => node
  end.

(** [NodeTransformer.visit]: the method named after the node's class when the
    transformer has one, [generic_visit] otherwise.
    - [visit_ClassDef] rebuilds the body as
      [[self.visit(child) if isinstance(child, (FunctionDef, AsyncFunctionDef))
        else child for child in node.body]];
    - [generic_visit] visits every child in every field and puts the results
      back, which on a [Compound] node is every statement of every block; the
      expressions below a node come back as they were. *)
Fixpoint visit (node : stmt) : stmt :=
  match node with
  | FunctionDef _ _ _ _ _ => visit_FunctionDef node
  | AsyncFunctionDef _ _ _ _ _ => visit_AsyncFunctionDef node
  | ClassDef n b k body d =>
      ClassDef n b k
        (map (fun child => if is_function_def child then visit child else child)
             body) d
  | Compound k ops blocks => Compound k ops (map (map visit) blocks)
  | Expr _ | Pass | Simple _ _ => node
  end.

(** What the comprehension of [visit_ClassDef] makes of one statement of the
    class body. *)
Definition visit_class_child (child : stmt) : stmt :=
  if is_function_def child then visit child else child.

(** [visit_ClassDef], as the method reads. *)
Definition visit_ClassDef (node : stmt) : stmt :=
  match node with
  | ClassDef n b k body d => ClassDef n b k (map visit_class_child body) d
  | _ => node
  end.

(** [FunctionBodyRemover().visit(parsed_ast)]: there is no [visit_Module], so
    the module goes through [generic_visit]. *)
Definition visit_Module (m : py_module) : py_module :=
  match m with
  | PyModule body => PyModule (map visit body)
  end.

End FunctionBodyRemover.

(** ** The two passes in the order of the code *)

(** What [remove_comments_docstrings_and_bodies] does between [ast.parse] and
    [ast.unparse]. *)
Definition strip_tree (m : py_module) : py_module :=
  FunctionBodyRemover.visit_Module (remove_docstrings m).

(** ** Predicates on trees used to state the properties *)

(** The body that [visit_FunctionDef] leaves: the single statement [pass]. *)
Definition is_placeholder_body (body : list stmt) : bool :=
  match body with
  | [Pass] => true
  | _ => false
  end.

(** Whether a body begins with an expression statement that wraps a string
    literal. *)
Definition starts_with_docstring (body : list stmt) : bool :=
  match body with
  | s :: _ => is_docstring_stmt s
  | [] => false
  end.

(** No function or class body, at any depth, begins with a string-literal
    expression statement. *)
Fixpoint no_leading_docstring_stmt (s : stmt) : bool :=
  match s with
  | FunctionDef _ _ body _ _ | AsyncFunctionDef _ _ body _ _
  | ClassDef _ _ _ body _ =>
      negb (starts_with_docstring body)
      && forallb no_leading_docstring_stmt body
  | Compound _ _ blocks => forallb (forallb no_leading_docstring_stmt) blocks
  | Expr _ | Pass | Simple _ _ => true
  end.

Definition no_leading_docstring (m : py_module) : bool :=
  negb (starts_with_docstring (module_body m))
  && forallb no_leading_docstring_stmt (module_body m).

(** Whether a body begins with two string-literal expression statements in a
    row: a docstring followed by another bare string. *)
Definition starts_with_two_strings (body : list stmt) : bool :=
  match body with
  | s1 :: s2 :: _ => is_docstring_stmt s1 && is_docstring_stmt s2
  | _ => false
  end.

Fixpoint no_double_string_stmt (s : stmt) : bool :=
  match s with
  | FunctionDef _ _ body _ _ | AsyncFunctionDef _ _ body _ _
  | ClassDef _ _ _ body _ =>
      negb (starts_with_two_strings body)
      && forallb no_double_string_stmt body
  | Compound _ _ blocks => forallb (forallb no_double_string_stmt) blocks
  | Expr _ | Pass | Simple _ _ => true
  end.

Definition no_double_string (m : py_module) : bool :=
  negb (starts_with_two_strings (module_body m))
  && forallb no_double_string_stmt (module_body m).

(** What the grammar asks of the body of a function or a class: at least one
    statement.  A tree returned by [ast.parse] has it everywhere, and the text
    that [ast.unparse] prints for a tree without it (a header line with
    nothing below) is rejected by [ast.parse].  The blocks of a [Compound]
    node are not constrained here: an absent [else] is an empty block. *)
Fixpoint bodies_nonempty_stmt (s : stmt) : bool :=
  match s with
  | FunctionDef _ _ body _ _ | AsyncFunctionDef _ _ body _ _
  | ClassDef _ _ _ body _ =>
      negb (Nat.eqb (length body) 0) && forallb bodies_nonempty_stmt body
  | Compound _ _ blocks => forallb (forallb bodies_nonempty_stmt) blocks
  | Expr _ | Pass | Simple _ _ => true
  end.

Definition bodies_nonempty (m : py_module) : bool :=
  forallb bodies_nonempty_stmt (module_body m).

(** The kinds of node a statement can have above it, and the positions of
    function definitions described by their ancestors (innermost first). *)
Inductive node_kind : Type := KFunction | KClass | KCompound.

Definition is_KClass (k : node_kind) : bool :=
  match k with KClass => true | _ => false end.

Definition is_KCompound (k : node_kind) : bool :=
  match k with KCompound => true | _ => false end.

(** "Its enclosing class, if any, is not itself nested inside another class":
    at most one class among the ancestors. *)
Definition class_not_nested (ancestors : list node_kind) : bool :=
  Nat.leb (length (List.filter is_KClass ancestors)) 1.

Definition is_KFunction (k : node_kind) : bool :=
  match k with KFunction => true | _ => false end.

(** "Outside every class, or an immediate statement of the body of a class
    that is not itself nested inside another class": no class among the
    ancestors, or one class, the parent. *)
Definition outside_or_immediate_in_class (ancestors : list node_kind) : bool :=
  match ancestors with
  | KClass :: above => negb (existsb is_KClass above)
  | _ => negb (existsb is_KClass ancestors)
  end.

(** The positions the traversal of [FunctionBodyRemover] arrives at: every
    ancestor is a compound statement, except that the parent may be a class. *)
Definition reached (ancestors : list node_kind) : bool :=
  match ancestors with
  | KClass :: above => forallb is_KCompound above
  | _ => forallb is_KCompound ancestors
  end.

(** Every function definition at a position that [eligible] accepts has the
    placeholder body. *)
Fixpoint placeholders_at (eligible : list node_kind -> bool)
    (ancestors : list node_kind) (s : stmt) : bool :=
  match s with
  | FunctionDef _ _ body _ _ | AsyncFunctionDef _ _ body _ _ =>
      (if eligible ancestors then is_placeholder_body body else true)
      && forallb (placeholders_at eligible (KFunction :: ancestors)) body
  | ClassDef _ _ _ body _ =>
      forallb (placeholders_at eligible (KClass :: ancestors)) body
  | Compound _ _ blocks =>
      forallb (forallb (placeholders_at eligible (KCompound :: ancestors))) blocks
  | Expr _ | Pass | Simple _ _ => true
  end.

(** What the body replacement may do to a statement of a class body: put the
    placeholder in a function, and nothing else. *)
Inductive class_child_frame : stmt -> stmt -> Prop :=
| frame_function n a body d r :
    class_child_frame (FunctionDef n a body d r) (FunctionDef n a [Pass] d r)
| frame_async_function n a body d r :
    class_child_frame (AsyncFunctionDef n a body d r)
                      (AsyncFunctionDef n a [Pass] d r)
| frame_other child :
    is_function_def child = false -> class_child_frame child child.

(** The header of a definition: what is left of it without its body. *)
Inductive signature : Type :=
| SigFunction (name : string) (fargs : arguments)
    (decorator_list : list expr) (returns : option expr)
| SigAsyncFunction (name : string) (fargs : arguments)
    (decorator_list : list expr) (returns : option expr)
| SigClass (name : string) (bases : list expr)
    (keywords : list (string * expr)) (decorator_list : list expr).

(** The headers of the function definitions at the positions that [eligible]
    accepts, in the order of the text. *)
Fixpoint functions_at (eligible : list node_kind -> bool)
    (ancestors : list node_kind) (s : stmt) : list signature :=
  match s with
  | FunctionDef n a body d r =>
      (if eligible ancestors then [SigFunction n a d r] else [])
      ++ flat_map (functions_at eligible (KFunction :: ancestors)) body
  | AsyncFunctionDef n a body d r =>
      (if eligible ancestors then [SigAsyncFunction n a d r] else [])
      ++ flat_map (functions_at eligible (KFunction :: ancestors)) body
  | ClassDef _ _ _ body _ =>
      flat_map (functions_at eligible (KClass :: ancestors)) body
  | Compound _ _ blocks =>
      flat_map (flat_map (functions_at eligible (KCompound :: ancestors))) blocks
  | Expr _ | Pass | Simple _ _ => []
  end.

(** The headers of all the definitions of a statement, functions and classes,
    at every depth, in the order of the text. *)
Fixpoint signatures (s : stmt) : list signature :=
  match s with
  | FunctionDef n a body d r => SigFunction n a d r :: flat_map signatures body
  | AsyncFunctionDef n a body d r =>
      SigAsyncFunction n a d r :: flat_map signatures body
  | ClassDef n b k body d => SigClass n b k d :: flat_map signatures body
  | Compound _ _ blocks => flat_map (flat_map signatures) blocks
  | Expr _ | Pass | Simple _ _ => []
  end.

(** The same without going into the body of a function: the definitions at
    module level, in classes and in compound statements. *)
Fixpoint outer_signatures (s : stmt) : list signature :=
  match s with
  | FunctionDef n a _ d r => [SigFunction n a d r]
  | AsyncFunctionDef n a _ d r => [SigAsyncFunction n a d r]
  | ClassDef n b k body d => SigClass n b k d :: flat_map outer_signatures body
  | Compound _ _ blocks => flat_map (flat_map outer_signatures) blocks
  | Expr _ | Pass | Simple _ _ => []
  end.

(** Whether a body is one string statement and nothing else: the body the
    docstring removal leaves with no statement. *)
Definition is_docstring_only (body : list stmt) : bool :=
  match body with
  | [s] => is_docstring_stmt s
  | _ => false
  end.

(** No function or class body, at any depth, is a docstring and nothing
    else. *)
Fixpoint no_docstring_only_body_stmt (s : stmt) : bool :=
  match s with
  | FunctionDef _ _ body _ _ | AsyncFunctionDef _ _ body _ _
  | ClassDef _ _ _ body _ =>
      negb (is_docstring_only body)
      && forallb no_docstring_only_body_stmt body
  | Compound _ _ blocks =>
      forallb (forallb no_docstring_only_body_stmt) blocks
  | Expr _ | Pass | Simple _ _ => true
  end.

Definition no_docstring_only_body (m : py_module) : bool :=
  forallb no_docstring_only_body_stmt (module_body m).

(** The number of statements of a tree, at every depth. *)
Fixpoint statements (s : stmt) : nat :=
  match s with
  | FunctionDef _ _ body _ _ | AsyncFunctionDef _ _ body _ _
  | ClassDef _ _ _ body _ => S (list_sum (map statements body))
  | Compound _ _ blocks =>
      S (list_sum (map (fun b => list_sum (map statements b)) blocks))
  | Expr _ | Pass | Simple _ _ => 1
  end.

Definition module_statements (m : py_module) : nat :=
  list_sum (map statements (module_body m)).

End Ast.

(** ** Files, output and exceptions *)

Module IO.

(** What a directory holds, as [os.walk] sees it: files, whose content can
    be read or whose [open]/[read] raises, and directories. *)
Inductive file_data : Type :=
| Readable (content : string)
| Unreadable (error : string).

Inductive entry : Type :=
| File (name : string) (data : file_data)
| Dir (name : string) (entries : list entry).

(** The exceptions the scripts raise or let through.  [sys.exit(n)] raises
    [SystemExit(n)]. *)
Inductive exn : Type :=
| SyntaxError
| FileNotFoundError (path : string)
| SystemExit (code : Z).

Inductive result (A : Type) : Type :=
| Ok (a : A)
| Raise (e : exn).
Arguments Ok {A} a.
Arguments Raise {A} e.

(** The state a script runs in: the text files by path (what [open(path)]
    reads and writes), the directory trees by root path (what [os.walk(root)]
    goes through), and what was printed. *)
Record world : Type := mk_world {
  files : gmap string string;
  trees : gmap string (list entry);
  stdout : list string;
  stderr : list string
}.

Definition io (A : Type) : Type := world -> result A * world.

Definition ret {A : Type} (a : A) : io A := fun w => (Ok a, w).

Definition bind {A B : Type} (m : io A) (k : A -> io B) : io B :=
  fun w =>
    match m w with
    | (Ok a, w') => k a w'
    | (Raise e, w') => (Raise e, w')
    end.

Definition raise {A : Type} (e : exn) : io A := fun w => (Raise e, w).

Definition lift {A : Type} (r : result A) : io A := fun w => (r, w).

(** [with open(path, "r") as f: f.read()]. *)
Definition read_file (path : string) : io string :=
  fun w =>
    match files w !! path with
    | Some content => (Ok content, w)
    | None => (Raise (FileNotFoundError path), w)
    end.

(** [with open(path, "w") as f: f.write(content)], for a write that goes
    through: the store is keyed by the path as it is spelled, and a write
    that raises after [open] has emptied the file is not modelled. *)
Definition write_file (path content : string) : io unit :=
  fun w =>
    (Ok tt, mk_world (<[path := content]> (files w)) (trees w)
                     (stdout w) (stderr w)).

Definition print (line : string) : io unit :=
  fun w =>
    (Ok tt, mk_world (files w) (trees w) (stdout w ++ [line]) (stderr w)).

Definition print_stderr (line : string) : io unit :=
  fun w =>
    (Ok tt, mk_world (files w) (trees w) (stdout w) (stderr w ++ [line])).

Definition sys_exit {A : Type} (code : Z) : io A := raise (SystemExit code).

(** The status the process ends with: 0 at the end of the script, the
    argument of [sys.exit], 1 after an exception nobody caught. *)
Definition exit_code {A : Type} (r : result A) : Z :=
  match r with
  | Ok _ => 0%Z
  | Raise (SystemExit code) => code
  | Raise _ => 1%Z
  end.

End IO.

Declare Scope io_scope.
Delimit Scope io_scope with io.
Notation "'let*' x ':=' m 'in' k" := (IO.bind m (fun x => k))
  (at level 10, x name, m at level 100, k at level 200, only parsing)
  : io_scope.

(** ** [scrape_api_only_PYTHON.py] on text *)

Module Scrape.
Import Ast IO.

Section WithParser.
(** [ast.parse] and [ast.unparse] belong to Python's library.  [ast_parse]
    gives [None] where [ast.parse] raises [SyntaxError]. *)
Variable ast_parse : string -> option py_module.
Variable ast_unparse : py_module -> string.

Definition remove_comments_docstrings_and_bodies (source : string)
  : result string :=
  match ast_parse source with
  | None => Raise SyntaxError
  | Some parsed_ast => Ok (ast_unparse (strip_tree parsed_ast))
  end.

Definition process_file (file_path : string) : io unit :=
  (let* source_code := read_file file_path in
   let* cleaned_code :=
     lift (remove_comments_docstrings_and_bodies source_code) in
   let* _ := write_file file_path cleaned_code in
   print ("Comments, docstrings, and function bodies removed from "
          ++ file_path))%io.

(** The script: [file_path = "temp.py"; process_file(file_path)]. *)
Definition main : io unit := process_file "temp.py".
End WithParser.

End Scrape.

(** ** Strings and paths *)

Module Text.

(** The newline character. *)
Definition nl : string := String (ascii_of_nat 10) EmptyString.

(** [c.lower()] on the letters A to Z; the other bytes stay. *)
Definition lower_ascii (c : ascii) : ascii :=
  let n := nat_of_ascii c in
  if Nat.leb 65 n && Nat.leb n 90 then ascii_of_nat (n + 32) else c.

(** Lower case for text in ASCII, where it is what [str.lower] gives.  The
    scripts are modelled over [str.lower] itself, taken as a parameter; this
    is the instance used on the sample names. *)
Fixpoint lower (s : string) : string :=
  match s with
  | EmptyString => EmptyString
  | String c rest => String (lower_ascii c) (lower rest)
  end.

(** [needle in s]. *)
Fixpoint contains (needle s : string) : bool :=
  String.prefix needle s
  || match s with
     | EmptyString => false
     | String _ rest => contains needle rest
     end.

(** [s.endswith("/")]. *)
Fixpoint ends_with_slash (s : string) : bool :=
  match s with
  | EmptyString => false
  | String c EmptyString => Ascii.eqb c "/"%char
  | String _ rest => ends_with_slash rest
  end.

(** [os.path.join(a, b)] for a name [b] that does not start with a slash. *)
Definition path_join (a b : string) : string :=
  if String.eqb a EmptyString then b
  else if ends_with_slash a then (a ++ b)%string
  else (a ++ "/" ++ b)%string.

Fixpoint has_slash (s : string) : bool :=
  match s with
  | EmptyString => false
  | String c rest => Ascii.eqb c "/"%char || has_slash rest
  end.

(** [os.path.basename(p)]: what follows the last slash. *)
Fixpoint basename (p : string) : string :=
  match p with
  | EmptyString => EmptyString
  | String c rest =>
      if has_slash rest then basename rest
      else if Ascii.eqb c "/"%char then rest
      else p
  end.

(** [os.path.relpath] of a file below the root: the names from the root down
    to the file, joined by the separator. *)
Definition relpath (components : list string) : string :=
  String.concat "/" components.

End Text.

(** ** [os.walk] and what the flatteners do with a file *)

Module Walk.
Import IO Text.

(** Induction over directory entries with the hypothesis for the listing. *)
Section EntryInd.
Variable P : entry -> Prop.
Hypothesis HFile : forall name data, P (File name data).
Hypothesis HDir : forall name entries, Forall P entries -> P (Dir name entries).

Fixpoint entry_nested_ind (e : entry) : P e :=
  let fix listing (l : list entry) : Forall P l :=
    match l with
    | [] => @List.Forall_nil _ P
    | x :: l' => @List.Forall_cons _ P x _ (entry_nested_ind x) (listing l')
    end in
  match e with
  | File name data => HFile name data
  | Dir name entries => HDir name entries (listing entries)
  end.
End EntryInd.

(** The same directory with every file of a given name taken out, at every
    depth. *)
Fixpoint without_file (name : string) (e : entry) : list entry :=
  match e with
  | File n _ => if String.eqb n name then [] else [e]
  | Dir n entries => [Dir n (flat_map (without_file name) entries)]
  end.

(** One step of [os.walk]: the directory's path, the names from the root down
    to it, and its files. *)
Record triple : Type := mk_triple {
  dirpath : string;
  below_root : list string;
  filenames : list (string * file_data)
}.

(** The entries of a directory that are not directories, in the order of the
    listing. *)
Definition files_in (entries : list entry) : list (string * file_data) :=
  flat_map (fun e => match e with
                     | File name data => [(name, data)]
                     | Dir _ _ => []
                     end) entries.

(** [os.walk] below the top directory, top down.  The caller prunes
    [dirnames] in place before the walk goes on, and only the names it keeps
    are entered: [keep] is the caller's test on a name. *)
Fixpoint walk_entry (keep : string -> bool) (parent : string)
    (above : list string) (e : entry) : list triple :=
  match e with
  | File _ _ => []
  | Dir name entries =>
      if keep name then
        let here := path_join parent name in
        let names := above ++ [name] in
        mk_triple here names (files_in entries)
        :: flat_map (walk_entry keep here names) entries
      else []
  end.

(** [os.walk(top)] on the listing of [top]. *)
Definition os_walk (keep : string -> bool) (top : string)
    (entries : list entry) : list triple :=
  mk_triple top [] (files_in entries)
  :: flat_map (walk_entry keep top []) entries.

(** A file the loop gets to.  [relative] holds the names from the root down to
    the file, the file's own name last. *)
Record visited : Type := mk_visited {
  relative : list string;
  file_path : string;
  data : file_data
}.

(** The files of one step of the walk that the loop does not [continue]
    over. *)
Definition visit_files (skip : string -> bool) (t : triple) : list visited :=
  flat_map (fun f : string * file_data =>
              let (filename, data) := f in
              if skip filename then []
              else [mk_visited (below_root t ++ [filename])
                               (path_join (dirpath t) filename) data])
           (filenames t).

(** [f"## {relative_path}\n\n{file_content}\n"], appended when the file was
    read. *)
Definition section_of (v : visited) : option string :=
  match data v with
  | Readable file_content =>
      Some ("## " ++ relpath (relative v) ++ nl ++ nl ++ file_content ++ nl)%string
  | Unreadable _ => None
  end.

(** [f"Error reading {file_path}: {e}"], printed when reading raised. *)
Definition error_of (v : visited) : option string :=
  match data v with
  | Readable _ => None
  | Unreadable e => Some ("Error reading " ++ file_path v ++ ": " ++ e)%string
  end.

(** The files a walk gets to, in order. *)
Definition visited_files (keep skip : string -> bool) (root_dir : string)
    (entries : list entry) : list visited :=
  flat_map (visit_files skip) (os_walk keep root_dir entries).

(** ["\n".join(codebase_content)]. *)
Definition artifact (vs : list visited) : string :=
  String.concat nl (omap section_of vs).

(** The loop of [extract_codebase_content] in either script: the errors are
    printed as they come, the sections are joined at the end.  A root that
    [os.walk] cannot list gives no step at all. *)
Definition extract_with (keep skip : string -> bool) (root_dir : string)
  : io string :=
  fun w =>
    let vs := match trees w !! root_dir with
              | Some entries => visited_files keep skip root_dir entries
              | None => []
              end in
    (Ok (artifact vs),
     mk_world (files w) (trees w) (stdout w ++ omap error_of vs) (stderr w)).

(** The number of files of a directory, at every depth. *)
Fixpoint count_files (e : entry) : nat :=
  match e with
  | File _ _ => 1
  | Dir _ entries => list_sum (map count_files entries)
  end.

(** The same directory with every file that cannot be read taken out, at
    every depth. *)
Fixpoint without_unreadable (e : entry) : list entry :=
  match e with
  | File _ (Readable _) => [e]
  | File _ (Unreadable _) => []
  | Dir n entries => [Dir n (flat_map without_unreadable entries)]
  end.

End Walk.

(** ** [app.py] *)

Module App.
Import IO Text Walk.

(** No directory is pruned and no file is skipped. *)
Definition extract_codebase_content (root_dir : string) : io string :=
  extract_with (fun _ => true) (fun _ => false) root_dir.

Definition usage : string := "Usage: python script.py <directory-path>".

(** The script, given [sys.argv]. *)
Definition main (argv : list string) : io unit :=
  (if Nat.ltb (length argv) 2 then
     let* _ := print usage in
     sys_exit 1%Z
   else
     let root_directory := nth 1 argv EmptyString in
     let* output := extract_codebase_content root_directory in
     let* _ := write_file "codebase_content.txt" output in
     print "Codebase content has been extracted and saved to codebase_content.txt.")%io.

End App.

(** ** [files_only.py] *)

Module FilesOnly.
Import IO Text Walk.

Section WithLibrary.
(** [str.lower] belongs to Python: it lowers every cased character of
    Unicode, not only the letters of ASCII. *)
Variable str_lower : string -> string.

(** [ArgumentParser.format_usage] and [ArgumentParser.format_help] for the
    parser of the script, by the name of the program: the text depends on
    the version of [argparse] and on the width of the terminal. *)
Variable format_usage : string -> string.
Variable format_help : string -> string.

Definition mentions_test_or_mock (name : string) : bool :=
  contains "test" (str_lower name) || contains "mock" (str_lower name).

(** The two assignments to [dirnames[:]]. *)
Definition keep_dir (include_tests : bool) (d : string) : bool :=
  negb (existsb (String.eqb d) [".git"; ".cache"; "build"; "install"])
  && (include_tests || negb (mentions_test_or_mock d)).

(** The condition of the [continue]. *)
Definition skip_file (include_tests : bool) (filename : string) : bool :=
  (negb include_tests && mentions_test_or_mock filename)
  || String.eqb filename "codebase_content.txt".

Definition extract_codebase_content (root_dir : string) (include_tests : bool)
  : io string :=
  extract_with (keep_dir include_tests) (skip_file include_tests) root_dir.

(** *** The command line *)

(** [args = parser.parse_args()] for the parser of the script: one positional
    argument [directory], the flag [-t]/[--include-tests], and the [-h]/[--help]
    that [argparse] adds.  [argparse] belongs to Python's library; this is what
    it does on the words it is modelled for: the four option strings as they
    are declared, and words that do not start with a dash; [prog] is the base
    name of the path the script was started under.  On a command line
    with any other word (an abbreviated or clustered option, [--], a word with
    an equals sign) [parse_args] gives [None]. *)
Record namespace : Type := mk_namespace {
  directory : string;
  include_tests : bool
}.

Inductive word : Type :=
| WIncludeTests
| WHelp
| WPositional (s : string)
| WOther (s : string).

Definition classify (a : string) : word :=
  if String.eqb a "-t" || String.eqb a "--include-tests" then WIncludeTests
  else if String.eqb a "-h" || String.eqb a "--help" then WHelp
  else if String.prefix "-" a then WOther a
  else WPositional a.

(** The option strings of the parser, and the two that ask for the help. *)
Definition is_option_word (a : string) : Prop :=
  a = "-t" \/ a = "--include-tests" \/ a = "-h" \/ a = "--help".

Definition is_help_word (a : string) : bool :=
  String.eqb a "-h" || String.eqb a "--help".

Definition is_modelled (w : word) : bool :=
  match w with WOther _ => false | _ => true end.

Definition is_help (w : word) : bool :=
  match w with WHelp => true | _ => false end.

Definition is_include_tests (w : word) : bool :=
  match w with WIncludeTests => true | _ => false end.

Definition positionals (ws : list word) : list string :=
  flat_map (fun w => match w with WPositional s => [s] | _ => [] end) ws.

(** [parser.error(message)]: the usage and the message on the standard error,
    then [sys.exit(2)]. *)
Definition parser_error {A : Type} (prog message : string) : io A :=
  (let* _ := print_stderr (format_usage prog) in
   let* _ := print_stderr (prog ++ ": error: " ++ message) in
   sys_exit 2%Z)%io.

(** The help action runs as soon as its option is met and exits with status
    0; a missing [directory] and words left over are errors, reported once the
    whole command line is read. *)
Definition parse_args (prog : string) (arguments : list string)
  : option (io namespace) :=
  let ws := map classify arguments in
  if negb (forallb is_modelled ws) then None
  else if existsb is_help ws then
    Some (let* _ := print (format_help prog) in sys_exit 0%Z)%io
  else
    match positionals ws with
    | [] =>
        Some (parser_error prog
                "the following arguments are required: directory")
    | [d] => Some (ret (mk_namespace d (existsb is_include_tests ws)))
    | _ :: extra =>
        Some (parser_error prog
                ("unrecognized arguments: " ++ String.concat " " extra)%string)
    end.

(** The script, given [sys.argv]; [None] on a command line outside the model
    of [parse_args].  [argparse] names the program by
    [os.path.basename(sys.argv[0])]. *)
Definition main (argv : list string) : option (io unit) :=
  match argv with
  | [] => None
  | script :: arguments =>
      match parse_args (basename script) arguments with
      | None => None
      | Some parse =>
          Some (let* args := parse in
                let root_directory := directory args in
                let include_tests := include_tests args in
                let* output :=
                  extract_codebase_content root_directory include_tests in
                let* _ := write_file "codebase_content.txt" output in
                print output)%io
      end
  end.
End WithLibrary.

End FilesOnly.

(** ** Sample inputs *)

Module Samples.
Import Ast.

Definition no_arguments : arguments := mk_arguments [] [] None [] [] None [].

Definition self_only : arguments :=
  mk_arguments [] [mk_arg "self" None] None [] [] None [].

Definition doc (text : string) : stmt := Expr (Constant (CStr text)).

Definition return_ (e : expr) : stmt := Simple "return" [e].

(** [[
class A:
    if DEBUG:
        def f(self):
            return 1
]] *)
Definition method_under_if : py_module :=
  PyModule
    [ClassDef "A" [] []
       [Compound "if" [Name "DEBUG"]
          [[FunctionDef "f" self_only [return_ (Constant (CNum 1))] [] None]]]
       []].

(** [[
'a'
'b'
]] *)
Definition two_strings : py_module := PyModule [doc "a"; doc "b"].

(** [[
'a'
'b'
x = 1
]] *)
Definition two_strings_and_more : py_module :=
  PyModule [doc "a"; doc "b";
            Simple "assign" [Name "x"; Constant (CNum 1)]].

(** [[
'Tools.'
class A:
    'A class.'
    x = 1
    def f(self):
        'A method.'
        return 1
]] *)
Definition documented : py_module :=
  PyModule
    [doc "Tools.";
     ClassDef "A" [] []
       [doc "A class.";
        Simple "assign" [Name "x"; Constant (CNum 1)];
        FunctionDef "f" self_only
          [doc "A method."; return_ (Constant (CNum 1))] [] None]
       []].

(** A parser and a printer that know one program, the text [pass]: enough to
    run the text-level functions on a source that parses and on one that does
    not. *)
Definition pass_only_parse (source : string) : option py_module :=
  if String.eqb source "pass" then Some (PyModule [Pass]) else None.

Definition pass_only_unparse (m : py_module) : string := "pass".

(** [[
def outer(x):
    @cache
    def helper(y):
        return y
    return helper(x)
]] *)
Definition helper_def : stmt :=
  FunctionDef "helper" (mk_arguments [] [mk_arg "y" None] None [] [] None [])
    [return_ (Name "y")] [Name "cache"] None.

Definition nested_function : py_module :=
  PyModule
    [FunctionDef "outer" (mk_arguments [] [mk_arg "x" None] None [] [] None [])
       [helper_def; return_ (Call (Name "helper") [Name "x"])] [] None].

(** [[
class Outer:
    'Outer.'
    limit = 3
    class Inner:
        def g(self):
            return 2
    def f(self):
        return 1
]] *)
Definition inner_class : stmt :=
  ClassDef "Inner" [] []
    [FunctionDef "g" self_only [return_ (Constant (CNum 2))] [] None] [].

Definition outer_class : stmt :=
  ClassDef "Outer" [] []
    [doc "Outer.";
     Simple "assign" [Name "limit"; Constant (CNum 3)];
     inner_class;
     FunctionDef "f" self_only [return_ (Constant (CNum 1))] [] None]
    [].

(** [[
class Marker:
    'Only a docstring.'
]] *)
Definition docstring_only_class : py_module :=
  PyModule [ClassDef "Marker" [] [] [doc "Only a docstring."] []].

(** A state with one file, [temp.py], that does not parse: an open
    parenthesis is never closed. *)
Definition unbalanced_world : IO.world :=
  IO.mk_world {["temp.py" := "def f(:"]} ∅ [] [].

(** A state with nothing in it. *)
Definition empty_world : IO.world := IO.mk_world ∅ ∅ [] [].

(** A project directory:
    [[
    main.py
    codebase_content.txt
    src/util.py
    src/codebase_content.txt
    tests/test_util.py
    .git/config
    ]] *)
Definition project : list IO.entry :=
  [IO.File "main.py" (IO.Readable "print(1)");
   IO.File "codebase_content.txt" (IO.Readable "old artifact");
   IO.Dir "src"
     [IO.File "util.py" (IO.Readable "x = 1");
      IO.File "codebase_content.txt" (IO.Readable "older artifact")];
   IO.Dir "tests" [IO.File "test_util.py" (IO.Readable "assert True")];
   IO.Dir ".git" [IO.File "config" (IO.Unreadable "Permission denied")]].

(** [[
def f(x):
    'doc'
    return x + 1
]] *)
Definition documented_function : py_module :=
  PyModule
    [FunctionDef "f" (mk_arguments [] [mk_arg "x" None] None [] [] None [])
       [doc "doc"; return_ (OtherExpr "x + 1")] [] None].

(** *** A printer and a parser for the samples *)

(** The double quote, and the three of them that open and close a docstring
    in the text [ast.unparse] prints. *)
Definition double_quote : string := String (ascii_of_nat 34) EmptyString.

Definition triple_quote : string :=
  (double_quote ++ double_quote ++ double_quote)%string.

Definition digit (n : nat) : string :=
  String (ascii_of_nat (48 + n)) EmptyString.

Fixpoint print_nat_fuel (fuel n : nat) : string :=
  match fuel with
  | 0 => EmptyString
  | S fuel' =>
      if Nat.ltb n 10 then digit n
      else (print_nat_fuel fuel' (Nat.div n 10) ++ digit (Nat.modulo n 10))%string
  end.

Definition print_Z (n : Z) : string :=
  if Z.ltb n 0
  then ("-" ++ print_nat_fuel (S (Z.to_nat (- n))) (Z.to_nat (- n)))%string
  else print_nat_fuel (S (Z.to_nat n)) (Z.to_nat n).

Definition print_constant (c : constant) : string :=
  match c with
  | CStr t => ("'" ++ t ++ "'")%string
  | CBytes t => ("b'" ++ t ++ "'")%string
  | CNum n => print_Z n
  | CBool true => "True"
  | CBool false => "False"
  | CNone => "None"
  | CEllipsis => "..."
  end.

Fixpoint print_expr (e : expr) : string :=
  match e with
  | Constant c => print_constant c
  | Name id => id
  | Attribute v a => (print_expr v ++ "." ++ a)%string
  | Call f actuals =>
      (print_expr f ++ "(" ++ String.concat ", " (map print_expr actuals)
       ++ ")")%string
  | JoinedStr pieces => ("f'" ++ String.concat EmptyString pieces ++ "'")%string
  | OtherExpr text => text
  end.

Definition print_arg (a : arg) : string :=
  match annotation a with
  | Some t => (arg_name a ++ ": " ++ print_expr t)%string
  | None => arg_name a
  end.

(** The parameters the samples use: positional ones, without defaults. *)
Definition print_arguments (a : arguments) : string :=
  String.concat ", " (map print_arg (app (posonlyargs a) (args a))).

Definition print_returns (r : option expr) : string :=
  match r with
  | Some t => (" -> " ++ print_expr t)%string
  | None => EmptyString
  end.

Definition print_bases (b : list expr) (k : list (string * expr)) : string :=
  match app (map print_expr b)
            (map (fun kv : string * expr =>
                    (fst kv ++ "=" ++ print_expr (snd kv))%string) k) with
  | [] => EmptyString
  | items => ("(" ++ String.concat ", " items ++ ")")%string
  end.

Definition print_simple (kind : string) (operands : list expr) : string :=
  match operands with
  | [target; value] =>
      if String.eqb kind "assign"
      then (print_expr target ++ " = " ++ print_expr value)%string
      else (kind ++ " " ++ String.concat ", " (map print_expr operands))%string
  | [] => kind
  | _ => (kind ++ " " ++ String.concat ", " (map print_expr operands))%string
  end.

(** The lines of a statement, the way [ast.unparse] lays them out: four
    spaces a level, an empty line before a definition, a leading string of a
    body between triple quotes, [pass] for [Pass]. *)
Fixpoint print_stmt (pad : string) (s : stmt) : list string :=
  let body_lines :=
    fun (body : list stmt) =>
      match body with
      | Expr (Constant (CStr t)) :: rest =>
          ("    " ++ pad ++ triple_quote ++ t ++ triple_quote)%string
          :: flat_map (print_stmt ("    " ++ pad)) rest
      | _ => flat_map (print_stmt ("    " ++ pad)) body
      end in
  match s with
  | FunctionDef n a body d r =>
      EmptyString
      :: app (map (fun e => (pad ++ "@" ++ print_expr e)%string) d)
             ((pad ++ "def " ++ n ++ "(" ++ print_arguments a ++ ")"
               ++ print_returns r ++ ":")%string
              :: body_lines body)
  | AsyncFunctionDef n a body d r =>
      EmptyString
      :: app (map (fun e => (pad ++ "@" ++ print_expr e)%string) d)
             ((pad ++ "async def " ++ n ++ "(" ++ print_arguments a ++ ")"
               ++ print_returns r ++ ":")%string
              :: body_lines body)
  | ClassDef n b k body d =>
      EmptyString
      :: app (map (fun e => (pad ++ "@" ++ print_expr e)%string) d)
             ((pad ++ "class " ++ n ++ print_bases b k ++ ":")%string
              :: body_lines body)
  | Expr e => [(pad ++ print_expr e)%string]
  | Pass => [(pad ++ "pass")%string]
  | Simple kind operands => [(pad ++ print_simple kind operands)%string]
  | Compound kind operands blocks =>
      match blocks with
      | [] =>
          [(pad ++ kind ++ " " ++ String.concat ", " (map print_expr operands)
            ++ ":")%string]
      | first :: others =>
          (pad ++ kind ++ " " ++ String.concat ", " (map print_expr operands)
           ++ ":")%string
          :: app (flat_map (print_stmt ("    " ++ pad)) first)
                 (flat_map
                    (fun block =>
                       (pad ++ "else:")%string
                       :: flat_map (print_stmt ("    " ++ pad)) block)
                    others)
      end
  end.

Definition print_module_lines (m : py_module) : list string :=
  match module_body m with
  | Expr (Constant (CStr t)) :: rest =>
      (triple_quote ++ t ++ triple_quote)%string
      :: flat_map (print_stmt EmptyString) rest
  | body => flat_map (print_stmt EmptyString) body
  end.

(** The text of a module: the lines joined, without the empty line a
    definition at the very start would open with. *)
Definition sample_unparse (m : py_module) : string :=
  match print_module_lines m with
  | first :: others =>
      if String.eqb first EmptyString then String.concat Text.nl others
      else String.concat Text.nl (first :: others)
  | [] => EmptyString
  end.

Definition lines (l : list string) : string := String.concat Text.nl l.

(** The source of [documented], with single-quoted docstrings. *)
Definition documented_source : string :=
  lines ["'Tools.'";
         "class A:";
         "    'A class.'";
         "    x = 1";
         "    def f(self):";
         "        'A method.'";
         "        return 1"].

(** [[
def f(x):
    return x
]] *)
Definition identity_function : py_module :=
  PyModule
    [FunctionDef "f" (mk_arguments [] [mk_arg "x" None] None [] [] None [])
       [return_ (Name "x")] [] None].

(** Two spellings of [identity_function]: blanks inside the parentheses are
    not part of the tree. *)
Definition spaced_source : string :=
  lines ["def f( x ):"; "    return x"].

Definition plain_source : string :=
  lines ["def f(x):"; "    return x"].

(** A parser that knows the sample sources and the text the printer gives
    for the outputs of the transform on them; any other text is taken not to
    parse. *)
Definition sample_parse (source : string) : option py_module :=
  option_map snd
    (List.find (fun known : string * py_module => String.eqb (fst known) source)
       [(documented_source, documented);
        (sample_unparse (strip_tree documented), strip_tree documented);
        (spaced_source, identity_function);
        (plain_source, identity_function);
        (sample_unparse (strip_tree identity_function),
         strip_tree identity_function)]).

(** [[
class Outer:
    class Inner:
        def g(self):
            'G.'
            return 2
]] *)
Definition outer_with_documented_method : stmt :=
  ClassDef "Outer" [] []
    [ClassDef "Inner" [] []
       [FunctionDef "g" self_only [doc "G."; return_ (Constant (CNum 2))]
          [] None]
       []]
    [].

(** The usage line and the help of [argparse] for the parser of
    [files_only.py], as Python 3.12 prints them on a terminal wide enough
    for the usage to fit on a line. *)
Definition sample_usage (prog : string) : string :=
  ("usage: " ++ prog ++ " [-h] [-t] directory")%string.

Definition sample_help (prog : string) : string :=
  lines [sample_usage prog;
         EmptyString;
         "Extract codebase content from a directory.";
         EmptyString;
         "positional arguments:";
         "  directory            Path to the root directory of the codebase";
         EmptyString;
         "options:";
         "  -h, --help           show this help message and exit";
         "  -t, --include-tests  Include files and folders with 'test' or 'mock' in the";
         "                       name"].

End Samples.

(** * Properties *)

Import Ast.
Import Ast.FunctionBodyRemover.

(** ** What the passes keep of a statement *)

Lemma is_docstring_stmt_visit (s : stmt) :
  is_docstring_stmt (visit s) = is_docstring_stmt s.
Proof. destruct s; reflexivity. Qed.

Lemma is_docstring_stmt_remove (s : stmt) :
  is_docstring_stmt (remove_docstrings_stmt s) = is_docstring_stmt s.
Proof. destruct s; reflexivity. Qed.

Lemma is_function_def_visit (s : stmt) :
  is_function_def (visit s) = is_function_def s.
Proof. destruct s; reflexivity. Qed.

Lemma is_function_def_remove (s : stmt) :
  is_function_def (remove_docstrings_stmt s) = is_function_def s.
Proof. destruct s; reflexivity. Qed.

Lemma is_docstring_not_function (s : stmt) :
  is_docstring_stmt s = true -> is_function_def s = false.
Proof. destruct s; simpl; congruence. Qed.

Lemma is_docstring_stmt_class_child (s : stmt) :
  is_docstring_stmt (visit_class_child s) = is_docstring_stmt s.
Proof.
  unfold visit_class_child. destruct (is_function_def s); [|reflexivity].
  apply is_docstring_stmt_visit.
Qed.

(** A map that keeps the test of the [pop] goes through the [pop]. *)
Lemma pop_docstring_map (f : stmt -> stmt) (body : list stmt) :
  (forall s, is_docstring_stmt (f s) = is_docstring_stmt s) ->
  pop_docstring (map f body) = map f (pop_docstring body).
Proof.
  intros Hf. destruct body as [|s rest]; [reflexivity|].
  simpl. rewrite Hf. destruct (is_docstring_stmt s); reflexivity.
Qed.

Lemma Forall_pop_docstring (P : stmt -> Prop) (body : list stmt) :
  Forall P body -> Forall P (pop_docstring body).
Proof.
  intros H. destruct body as [|s rest]; [exact H|].
  simpl. destruct (is_docstring_stmt s); [|exact H].
  inversion H; assumption.
Qed.

Lemma map_ext_Forall' {A B : Type} (f g : A -> B) (l : list A) :
  Forall (fun x => f x = g x) l -> map f l = map g l.
Proof.
  induction 1 as [|x l Hx _ IH]; [reflexivity|].
  simpl. rewrite Hx, IH. reflexivity.
Qed.

Lemma map_map_ext_Forall {A B : Type} (f g : A -> B) (ls : list (list A)) :
  Forall (Forall (fun x => f x = g x)) ls -> map (map f) ls = map (map g) ls.
Proof.
  intros H. apply map_ext_Forall'.
  eapply Forall_impl; [exact H|]. intros l Hl. apply map_ext_Forall'. exact Hl.
Qed.

(** ** The two passes commute on a statement *)

Lemma visit_remove_docstrings_stmt (s : stmt) :
  visit (remove_docstrings_stmt s) = remove_docstrings_stmt (visit s).
Proof.
  induction s as [n a body d r IH|n a body d r IH|n b k body d IH
                 |e| |k ops|k ops blocks IH] using stmt_nested_ind;
    try reflexivity.
  - (* ClassDef *)
    simpl. f_equal.
    change (fun child => if is_function_def child then visit child else child)
      with visit_class_child.
    rewrite (pop_docstring_map visit_class_child)
      by apply is_docstring_stmt_class_child.
    rewrite !map_map. apply map_ext_Forall'.
    apply Forall_pop_docstring.
    eapply Forall_impl; [exact IH|]. intros c Hc. simpl in Hc.
    unfold visit_class_child. rewrite is_function_def_remove.
    destruct (is_function_def c); [exact Hc|reflexivity].
  - (* Compound *)
    simpl. f_equal. rewrite !map_map.
    apply map_ext_Forall'.
    eapply Forall_impl; [exact IH|]. intros l Hl. simpl in Hl.
    rewrite !map_map. apply map_ext_Forall'. exact Hl.
Qed.

Lemma visit_Module_remove_docstrings (m : py_module) :
  visit_Module (remove_docstrings m) = remove_docstrings (visit_Module m).
Proof.
  destruct m as [body]. simpl. f_equal.
  rewrite (pop_docstring_map visit) by apply is_docstring_stmt_visit.
  rewrite !map_map. apply map_ext. intros s.
  apply visit_remove_docstrings_stmt.
Qed.

(** C5: the two passes commute.  Running the body replacement after the
    docstring removal, as the code does, gives the same tree as running the
    docstring removal after the body replacement, and so the same text
    whatever the printer is. *)
Theorem passes_commute (ast_unparse : py_module -> string) (m : py_module) :
  visit_Module (remove_docstrings m) = remove_docstrings (visit_Module m)
  /\ ast_unparse (visit_Module (remove_docstrings m))
     = ast_unparse (remove_docstrings (visit_Module m)).
Proof.
  assert (H : visit_Module (remove_docstrings m)
              = remove_docstrings (visit_Module m)).
  { destruct m as [body]. simpl. f_equal.
    rewrite (pop_docstring_map visit) by apply is_docstring_stmt_visit.
    rewrite !map_map. apply map_ext. intros s.
    apply visit_remove_docstrings_stmt. }
  split; [exact H|]. rewrite H. reflexivity.
Qed.

(** ** Where the body replacement arrives *)

Lemma reached_below_unreached (k : node_kind) (ancestors : list node_kind) :
  forallb is_KCompound ancestors = false ->
  reached (k :: ancestors) = false
  /\ forallb is_KCompound (k :: ancestors) = false.
Proof.
  intros H. split.
  - destruct k; simpl; rewrite ?H; reflexivity.
  - simpl. rewrite H. apply andb_false_r.
Qed.

Lemma forallb_Forall_true {A : Type} (f : A -> bool) (l : list A) :
  Forall (fun x => f x = true) l -> forallb f l = true.
Proof. intros H. apply forallb_forall. apply List.Forall_forall. exact H. Qed.

Lemma flat_map_Forall_nil {A B : Type} (f : A -> list B) (l : list A) :
  Forall (fun x => f x = []) l -> flat_map f l = [].
Proof.
  induction 1 as [|x l Hx _ IH]; [reflexivity|].
  simpl. rewrite Hx, IH. reflexivity.
Qed.

Lemma below_class_not_eligible (k : node_kind) (ancestors : list node_kind) :
  existsb is_KClass ancestors = true ->
  outside_or_immediate_in_class (k :: ancestors) = false
  /\ existsb is_KClass (k :: ancestors) = true.
Proof.
  intros H. split.
  - destruct k; simpl; rewrite ?H; reflexivity.
  - simpl. rewrite H. apply orb_true_r.
Qed.

(** Below a class that is not the parent, nothing is asked. *)
Lemma placeholders_at_below_class (s : stmt) :
  forall ancestors,
    existsb is_KClass ancestors = true ->
    outside_or_immediate_in_class ancestors = false ->
    placeholders_at outside_or_immediate_in_class ancestors s = true.
Proof.
  induction s as [n a body d r IH|n a body d r IH|n b k body d IH
                 |e| |k ops|k ops blocks IH] using stmt_nested_ind;
    intros anc Hclass Hno; simpl; try reflexivity.
  - rewrite Hno. simpl. apply forallb_Forall_true.
    eapply Forall_impl; [exact IH|]. intros c Hc.
    apply Hc; apply (below_class_not_eligible KFunction anc Hclass).
  - rewrite Hno. simpl. apply forallb_Forall_true.
    eapply Forall_impl; [exact IH|]. intros c Hc.
    apply Hc; apply (below_class_not_eligible KFunction anc Hclass).
  - apply forallb_Forall_true.
    eapply Forall_impl; [exact IH|]. intros c Hc.
    apply Hc; apply (below_class_not_eligible KClass anc Hclass).
  - apply forallb_Forall_true.
    eapply Forall_impl; [exact IH|]. intros l Hl.
    apply forallb_Forall_true.
    eapply Forall_impl; [exact Hl|]. intros c Hc.
    apply Hc; apply (below_class_not_eligible KCompound anc Hclass).
Qed.

Lemma functions_at_unreached (s : stmt) :
  forall ancestors,
    forallb is_KCompound ancestors = false ->
    reached ancestors = false ->
    functions_at reached ancestors s = [].
Proof.
  induction s as [n a body d r IH|n a body d r IH|n b k body d IH
                 |e| |k ops|k ops blocks IH] using stmt_nested_ind;
    intros anc Hdead Hun; simpl; try reflexivity.
  - rewrite Hun. simpl. apply flat_map_Forall_nil.
    eapply Forall_impl; [exact IH|]. intros c Hc.
    apply Hc; apply (reached_below_unreached KFunction anc Hdead).
  - rewrite Hun. simpl. apply flat_map_Forall_nil.
    eapply Forall_impl; [exact IH|]. intros c Hc.
    apply Hc; apply (reached_below_unreached KFunction anc Hdead).
  - apply flat_map_Forall_nil.
    eapply Forall_impl; [exact IH|]. intros c Hc.
    apply Hc; apply (reached_below_unreached KClass anc Hdead).
  - apply flat_map_Forall_nil.
    eapply Forall_impl; [exact IH|]. intros l Hl.
    apply flat_map_Forall_nil.
    eapply Forall_impl; [exact Hl|]. intros c Hc.
    apply Hc; apply (reached_below_unreached KCompound anc Hdead).
Qed.

Lemma reached_open (ancestors : list node_kind) :
  forallb is_KCompound ancestors = true -> reached ancestors = true.
Proof. intros H. destruct ancestors as [|[] anc]; simpl in *; congruence. Qed.

(** A statement of a class body, after the body replacement: a function has
    the placeholder, and below any other statement nothing is asked. *)
Lemma placeholders_at_class_child (c : stmt) (ancestors : list node_kind) :
  placeholders_at outside_or_immediate_in_class (KClass :: ancestors)
    (visit_class_child c) = true.
Proof.
  unfold visit_class_child.
  destruct c as [n a body d r|n a body d r|n b k body d|e| |k ops|k ops blocks];
    simpl; try reflexivity.
  - destruct (negb (existsb is_KClass ancestors)); reflexivity.
  - destruct (negb (existsb is_KClass ancestors)); reflexivity.
  - apply forallb_Forall_true. apply List.Forall_forall. intros c _.
    apply placeholders_at_below_class; reflexivity.
  - apply forallb_Forall_true. apply List.Forall_forall. intros l _.
    apply forallb_Forall_true. apply List.Forall_forall. intros c _.
    apply placeholders_at_below_class; reflexivity.
Qed.

Lemma placeholders_at_visit (s : stmt) :
  forall ancestors,
    placeholders_at outside_or_immediate_in_class ancestors (visit s) = true.
Proof.
  induction s as [n a body d r IH|n a body d r IH|n b k body d IH
                 |e| |k ops|k ops blocks IH] using stmt_nested_ind;
    intros anc; simpl; try reflexivity.
  - destruct (outside_or_immediate_in_class anc); reflexivity.
  - destruct (outside_or_immediate_in_class anc); reflexivity.
  - apply forallb_Forall_true. apply List.Forall_forall.
    intros c' Hin. apply in_map_iff in Hin. destruct Hin as [c [<- _]].
    apply placeholders_at_class_child.
  - apply forallb_Forall_true. apply List.Forall_forall.
    intros l' Hin. apply in_map_iff in Hin. destruct Hin as [l [<- Hl]].
    apply forallb_Forall_true. apply List.Forall_forall.
    intros c' Hin. apply in_map_iff in Hin. destruct Hin as [c [<- Hc]].
    rewrite List.Forall_forall in IH. specialize (IH l Hl).
    rewrite List.Forall_forall in IH. apply (IH c Hc).
Qed.

Lemma all_compound_iff (ancestors : list node_kind) :
  forallb is_KCompound ancestors
  = negb (existsb is_KClass ancestors) && negb (existsb is_KFunction ancestors).
Proof.
  induction ancestors as [|[] anc IH]; simpl; try reflexivity.
  - rewrite andb_false_r. reflexivity.
  - exact IH.
Qed.

Lemma reached_iff (ancestors : list node_kind) :
  reached ancestors
  = outside_or_immediate_in_class ancestors
    && negb (existsb is_KFunction ancestors).
Proof.
  destruct ancestors as [|[] anc]; simpl; try reflexivity.
  - rewrite andb_false_r. reflexivity.
  - apply all_compound_iff.
  - apply all_compound_iff.
Qed.

(** ** The function definitions at the reached positions *)

Lemma flat_map_map {A B C : Type} (f : B -> list C) (g : A -> B) (l : list A) :
  flat_map f (map g l) = flat_map (fun x => f (g x)) l.
Proof.
  induction l as [|x l IH]; [reflexivity|]. simpl. rewrite IH. reflexivity.
Qed.

Lemma flat_map_ext_Forall {A B : Type} (f g : A -> list B) (l : list A) :
  Forall (fun x => f x = g x) l -> flat_map f l = flat_map g l.
Proof.
  induction 1 as [|x l Hx _ IH]; [reflexivity|].
  simpl. rewrite Hx, IH. reflexivity.
Qed.

(** A collection that finds nothing in a string statement does not see the
    [pop]. *)
Lemma flat_map_pop_docstring {B : Type} (f : stmt -> list B)
    (body : list stmt) :
  (forall s, is_docstring_stmt s = true -> f s = []) ->
  flat_map f (pop_docstring body) = flat_map f body.
Proof.
  intros Hf. destruct body as [|s rest]; [reflexivity|]. simpl.
  destruct (is_docstring_stmt s) eqn:Hs; [|reflexivity].
  rewrite (Hf s Hs). reflexivity.
Qed.

Lemma flat_map_remove_docstrings {B : Type} (f : stmt -> list B)
    (body : list stmt) :
  (forall s, is_docstring_stmt s = true -> f s = []) ->
  Forall (fun s => f (remove_docstrings_stmt s) = f s) body ->
  flat_map f (map remove_docstrings_stmt (pop_docstring body))
  = flat_map f body.
Proof.
  intros Hf Hbody. rewrite flat_map_map.
  rewrite <- (flat_map_pop_docstring f body Hf).
  apply flat_map_ext_Forall. apply Forall_pop_docstring. exact Hbody.
Qed.

Lemma functions_at_docstring (eligible : list node_kind -> bool)
    (ancestors : list node_kind) (s : stmt) :
  is_docstring_stmt s = true -> functions_at eligible ancestors s = [].
Proof. destruct s; simpl; congruence. Qed.

Lemma functions_at_remove (eligible : list node_kind -> bool) (s : stmt) :
  forall ancestors,
    functions_at eligible ancestors (remove_docstrings_stmt s)
    = functions_at eligible ancestors s.
Proof.
  induction s as [n a body d r IH|n a body d r IH|n b k body d IH
                 |e| |k ops|k ops blocks IH] using stmt_nested_ind;
    intros anc; simpl; try reflexivity.
  - f_equal. apply flat_map_remove_docstrings.
    + intros s. apply functions_at_docstring.
    + eapply Forall_impl; [exact IH|]. intros c Hc. apply Hc.
  - f_equal. apply flat_map_remove_docstrings.
    + intros s. apply functions_at_docstring.
    + eapply Forall_impl; [exact IH|]. intros c Hc. apply Hc.
  - apply flat_map_remove_docstrings.
    + intros s. apply functions_at_docstring.
    + eapply Forall_impl; [exact IH|]. intros c Hc. apply Hc.
  - rewrite flat_map_map. apply flat_map_ext_Forall.
    eapply Forall_impl; [exact IH|]. intros l Hl. simpl in Hl.
    rewrite flat_map_map. apply flat_map_ext_Forall.
    eapply Forall_impl; [exact Hl|]. intros c Hc. apply Hc.
Qed.

Lemma functions_at_class_child (c : stmt) (ancestors : list node_kind) :
  forallb is_KCompound ancestors = true ->
  functions_at reached (KClass :: ancestors) (visit_class_child c)
  = functions_at reached (KClass :: ancestors) c.
Proof.
  intros Hopen. unfold visit_class_child.
  destruct c as [n a body d r|n a body d r|n b k body d|e| |k ops|k ops blocks];
    simpl; try reflexivity.
  - rewrite Hopen. simpl. f_equal. symmetry. apply flat_map_Forall_nil.
    apply List.Forall_forall. intros c _.
    apply functions_at_unreached; simpl; rewrite ?andb_false_r; reflexivity.
  - rewrite Hopen. simpl. f_equal. symmetry. apply flat_map_Forall_nil.
    apply List.Forall_forall. intros c _.
    apply functions_at_unreached; simpl; rewrite ?andb_false_r; reflexivity.
Qed.

Lemma functions_at_visit (s : stmt) :
  forall ancestors,
    forallb is_KCompound ancestors = true ->
    functions_at reached ancestors (visit s) = functions_at reached ancestors s.
Proof.
  induction s as [n a body d r IH|n a body d r IH|n b k body d IH
                 |e| |k ops|k ops blocks IH] using stmt_nested_ind;
    intros anc Hopen; simpl; try reflexivity.
  - rewrite (reached_open anc Hopen). simpl. f_equal. symmetry.
    apply flat_map_Forall_nil. apply List.Forall_forall. intros c _.
    apply functions_at_unreached; simpl; rewrite ?andb_false_r; reflexivity.
  - rewrite (reached_open anc Hopen). simpl. f_equal. symmetry.
    apply flat_map_Forall_nil. apply List.Forall_forall. intros c _.
    apply functions_at_unreached; simpl; rewrite ?andb_false_r; reflexivity.
  - rewrite flat_map_map. apply flat_map_ext. intros c.
    apply functions_at_class_child. exact Hopen.
  - rewrite flat_map_map. apply flat_map_ext_Forall.
    eapply Forall_impl; [exact IH|]. intros l Hl. simpl in Hl.
    rewrite flat_map_map. apply flat_map_ext_Forall.
    eapply Forall_impl; [exact Hl|]. intros c Hc. apply Hc.
    simpl. exact Hopen.
Qed.

(** C1, as the code has it: in the output every function definition that
    is outside every class, or is an immediate statement of the body of a
    class that is not itself nested inside another class, has the body
    [[pass]]; and the definitions at such positions that are not inside the
    body of a function (the reached positions) are in the output what they are
    in the input, in order and with the same name, parameters, decorators and
    return annotation. *)
Theorem reached_functions_have_placeholder (m : py_module) :
  forallb (placeholders_at outside_or_immediate_in_class [])
    (module_body (strip_tree m)) = true
  /\ flat_map (functions_at reached []) (module_body (strip_tree m))
     = flat_map (functions_at reached []) (module_body m)
  /\ forall ancestors,
       reached ancestors
       = outside_or_immediate_in_class ancestors
         && negb (existsb is_KFunction ancestors).
Proof.
  destruct m as [body]. unfold strip_tree. simpl. split; [|split].
  - apply forallb_Forall_true. apply List.Forall_forall.
    intros s' Hin. apply in_map_iff in Hin. destruct Hin as [s [<- _]].
    apply placeholders_at_visit.
  - rewrite flat_map_map.
    rewrite (flat_map_ext _ (functions_at reached []))
      by (intros s; apply functions_at_visit; reflexivity).
    apply flat_map_remove_docstrings.
    + intros s. apply functions_at_docstring.
    + apply List.Forall_forall. intros s _. apply functions_at_remove.
  - exact reached_iff.
Qed.

(** The function of the sample keeps its header and loses its docstring and
    its [return]. *)
Example documented_function_stripped :
  strip_tree Samples.documented_function
  = PyModule
      [FunctionDef "f"
         (mk_arguments [] [mk_arg "x" None] None [] [] None [])
         [Pass] [] None].
Proof. reflexivity. Qed.

(** C1 as stated fails: the method [f], defined under an [if] in the body
    of the class [A], has [A] as its enclosing class and [A] is in no other
    class; the transform leaves the tree as it is, [f] with its [return]. *)
Lemma method_under_if_keeps_body :
  strip_tree Samples.method_under_if = Samples.method_under_if
  /\ forallb (placeholders_at class_not_nested [])
       (module_body (strip_tree Samples.method_under_if)) = false.
Proof. split; reflexivity. Qed.

(** ** Leading string statements *)

Lemma starts_with_docstring_map (f : stmt -> stmt) (body : list stmt) :
  (forall s, is_docstring_stmt (f s) = is_docstring_stmt s) ->
  starts_with_docstring (map f body) = starts_with_docstring body.
Proof. intros Hf. destruct body as [|s rest]; [reflexivity|]. apply Hf. Qed.

Lemma pop_docstring_no_docstring (body : list stmt) :
  starts_with_docstring body = false -> pop_docstring body = body.
Proof.
  destruct body as [|s rest]; [reflexivity|]. simpl. intros ->. reflexivity.
Qed.

Lemma forallb_map_Forall (p q : stmt -> bool) (f : stmt -> stmt)
    (body : list stmt) :
  Forall (fun c => p c = true -> q (f c) = true) body ->
  forallb p body = true ->
  forallb q (map f body) = true.
Proof.
  induction 1 as [|c l Hc _ IH]; [reflexivity|]. simpl.
  intros H. apply andb_true_iff in H. destruct H as [H1 H2].
  rewrite (Hc H1), (IH H2). reflexivity.
Qed.

Lemma forallb_pop_docstring (p : stmt -> bool) (body : list stmt) :
  forallb p body = true -> forallb p (pop_docstring body) = true.
Proof.
  destruct body as [|s rest]; [reflexivity|]. simpl.
  intros H. destruct (is_docstring_stmt s); [|exact H].
  apply andb_true_iff in H. apply H.
Qed.

Lemma starts_with_docstring_pop_eq (body : list stmt) :
  starts_with_docstring (pop_docstring body) = starts_with_two_strings body.
Proof.
  destruct body as [|s1 [|s2 rest]]; simpl; [reflexivity| |].
  - destruct (is_docstring_stmt s1) eqn:H1; simpl; [reflexivity|exact H1].
  - destruct (is_docstring_stmt s1) eqn:H1; simpl; [reflexivity|exact H1].
Qed.

Lemma forallb_pop_docstring_eq (p : stmt -> bool) (body : list stmt) :
  (forall s, is_docstring_stmt s = true -> p s = true) ->
  forallb p (pop_docstring body) = forallb p body.
Proof.
  intros Hp. destruct body as [|s rest]; [reflexivity|]. simpl.
  destruct (is_docstring_stmt s) eqn:Hs; [|reflexivity].
  rewrite (Hp s Hs). reflexivity.
Qed.

Lemma forallb_map_eq {A : Type} (p q : A -> bool) (f : A -> A)
    (body : list A) :
  Forall (fun c => q (f c) = p c) body ->
  forallb q (map f body) = forallb p body.
Proof.
  induction 1 as [|c l Hc _ IH]; [reflexivity|].
  simpl. rewrite Hc, IH. reflexivity.
Qed.

Lemma no_double_string_docstring (s : stmt) :
  is_docstring_stmt s = true -> no_double_string_stmt s = true.
Proof. destruct s; simpl; congruence. Qed.

(** After the docstring removal a body begins with a string statement exactly
    where it began with two of them before. *)
Lemma no_leading_docstring_remove_eq (s : stmt) :
  no_leading_docstring_stmt (remove_docstrings_stmt s)
  = no_double_string_stmt s.
Proof.
  induction s as [n a body d r IH|n a body d r IH|n b k body d IH
                 |e| |k ops|k ops blocks IH] using stmt_nested_ind;
    simpl; try reflexivity.
  1-3: rewrite (starts_with_docstring_map remove_docstrings_stmt)
         by apply is_docstring_stmt_remove;
       rewrite starts_with_docstring_pop_eq; f_equal;
       rewrite (forallb_map_eq no_double_string_stmt)
         by (apply Forall_pop_docstring; exact IH);
       apply forallb_pop_docstring_eq; exact no_double_string_docstring.
  apply (forallb_map_eq (forallb no_double_string_stmt)).
  eapply Forall_impl; [exact IH|]. intros l Hl. simpl in Hl.
  apply forallb_map_eq. exact Hl.
Qed.

Lemma no_leading_docstring_remove_module (m : py_module) :
  no_leading_docstring (remove_docstrings m) = no_double_string m.
Proof.
  destruct m as [body]. unfold no_leading_docstring, no_double_string. simpl.
  rewrite (starts_with_docstring_map remove_docstrings_stmt)
    by apply is_docstring_stmt_remove.
  rewrite starts_with_docstring_pop_eq. f_equal.
  rewrite (forallb_map_eq no_double_string_stmt).
  - apply forallb_pop_docstring_eq. exact no_double_string_docstring.
  - apply List.Forall_forall. intros c _. apply no_leading_docstring_remove_eq.
Qed.

(** C4, as the code has it: the docstring removal goes through every node
    and takes one statement at most, the first, off each body.  So the output
    has no module, class or function body that begins with a string-literal
    expression statement exactly when, once the bodies of the reached
    functions are replaced, no body of the input begins with two of them in a
    row; and the output begins with one at module scope exactly when the
    module begins with two. *)
Theorem leading_docstring_after_strip (m : py_module) :
  no_leading_docstring (strip_tree m) = no_double_string (visit_Module m)
  /\ starts_with_docstring (module_body (strip_tree m))
     = starts_with_two_strings (module_body m).
Proof.
  split.
  - unfold strip_tree. rewrite (visit_Module_remove_docstrings m).
    apply no_leading_docstring_remove_module.
  - destruct m as [body]. unfold strip_tree. simpl.
    rewrite (starts_with_docstring_map visit) by apply is_docstring_stmt_visit.
    rewrite (starts_with_docstring_map remove_docstrings_stmt)
      by apply is_docstring_stmt_remove.
    apply starts_with_docstring_pop_eq.
Qed.

(** A function with two leading strings and a [return]: its body is replaced,
    so nothing of the two strings is left in the output. *)
Example two_strings_in_replaced_body :
  no_double_string
    (PyModule [FunctionDef "f" Samples.no_arguments
                 [Samples.doc "a"; Samples.doc "b";
                  Samples.return_ (Constant (CNum 1))] [] None]) = false
  /\ no_leading_docstring
       (strip_tree
          (PyModule [FunctionDef "f" Samples.no_arguments
                       [Samples.doc "a"; Samples.doc "b";
                        Samples.return_ (Constant (CNum 1))] [] None])) = true.
Proof. split; reflexivity. Qed.

(** C4 as stated fails: a module that begins with two string statements
    has a module-level docstring, and its output still begins with a string
    statement, the second one. *)
Lemma second_string_stays :
  starts_with_docstring (module_body Samples.two_strings) = true
  /\ strip_tree Samples.two_strings = PyModule [Samples.doc "b"]
  /\ starts_with_docstring (module_body (strip_tree Samples.two_strings)) = true
  /\ no_leading_docstring (strip_tree Samples.two_strings) = false.
Proof. repeat split. Qed.

(** ** Applying the transform again *)

Lemma map_id_Forall {A : Type} (f : A -> A) (l : list A) :
  Forall (fun x => f x = x) l -> map f l = l.
Proof.
  induction 1 as [|x l Hx _ IH]; [reflexivity|].
  simpl. rewrite Hx, IH. reflexivity.
Qed.

Lemma Forall_forallb_impl (p : stmt -> bool) (P : stmt -> Prop)
    (l : list stmt) :
  Forall (fun c => p c = true -> P c) l -> forallb p l = true -> Forall P l.
Proof.
  induction 1 as [|c l Hc _ IH]; [constructor|]. simpl.
  intros H. apply andb_true_iff in H. destruct H as [H1 H2].
  constructor; [apply Hc; exact H1|apply IH; exact H2].
Qed.

(** The docstring removal leaves a tree with no leading string statement as
    it is. *)
Lemma remove_docstrings_stmt_id (s : stmt) :
  no_leading_docstring_stmt s = true -> remove_docstrings_stmt s = s.
Proof.
  induction s as [n a body d r IH|n a body d r IH|n b k body d IH
                 |e| |k ops|k ops blocks IH] using stmt_nested_ind;
    simpl; try reflexivity.
  1-3: intros H; apply andb_true_iff in H; destruct H as [H1 H2];
       apply negb_true_iff in H1;
       rewrite (pop_docstring_no_docstring body H1);
       rewrite (map_id_Forall remove_docstrings_stmt body);
       [ reflexivity
       | apply (Forall_forallb_impl no_leading_docstring_stmt);
         [exact IH|exact H2] ].
  - intros H. f_equal. apply map_id_Forall.
    rewrite forallb_forall in H. rewrite List.Forall_forall in IH.
    apply List.Forall_forall. intros l Hl. apply map_id_Forall.
    apply (Forall_forallb_impl no_leading_docstring_stmt);
      [apply (IH l Hl)|apply (H l Hl)].
Qed.

Lemma remove_docstrings_id (m : py_module) :
  no_leading_docstring m = true -> remove_docstrings m = m.
Proof.
  destruct m as [body]. unfold no_leading_docstring. simpl.
  intros H. apply andb_true_iff in H. destruct H as [H1 H2].
  apply negb_true_iff in H1. rewrite (pop_docstring_no_docstring body H1).
  f_equal. apply map_id_Forall.
  apply (Forall_forallb_impl no_leading_docstring_stmt); [|exact H2].
  apply List.Forall_forall. intros c _. apply remove_docstrings_stmt_id.
Qed.

(** The body replacement is idempotent. *)
Lemma visit_class_child_idempotent (c : stmt) :
  visit_class_child (visit_class_child c) = visit_class_child c.
Proof. destruct c; reflexivity. Qed.

Lemma visit_idempotent (s : stmt) : visit (visit s) = visit s.
Proof.
  induction s as [n a body d r IH|n a body d r IH|n b k body d IH
                 |e| |k ops|k ops blocks IH] using stmt_nested_ind;
    simpl; try reflexivity.
  - f_equal. rewrite map_map. apply map_ext. intros c.
    apply visit_class_child_idempotent.
  - f_equal. rewrite map_map. apply map_ext_Forall'.
    eapply Forall_impl; [exact IH|]. intros l Hl. simpl in Hl.
    rewrite map_map. apply map_ext_Forall'. exact Hl.
Qed.

Lemma visit_Module_idempotent (m : py_module) :
  visit_Module (visit_Module m) = visit_Module m.
Proof.
  destruct m as [body]. simpl. f_equal. rewrite map_map.
  apply map_ext. intros s. apply visit_idempotent.
Qed.

Lemma strip_tree_idempotent (m : py_module) :
  no_leading_docstring (strip_tree m) = true ->
  strip_tree (strip_tree m) = strip_tree m.
Proof.
  intros H. unfold strip_tree at 1. rewrite (remove_docstrings_id _ H).
  unfold strip_tree. apply visit_Module_idempotent.
Qed.

(** C2, as the code has it: applying the transform to its own output gives
    the same text again whenever that output has no module, class or function
    body that begins with a string-literal expression statement, and parses
    back to the tree it was printed from. *)
Theorem transform_idempotent_on_text
    (ast_parse : string -> option py_module)
    (ast_unparse : py_module -> string)
    (source : string) (tree : py_module) :
  ast_parse source = Some tree ->
  no_leading_docstring (strip_tree tree) = true ->
  ast_parse (ast_unparse (strip_tree tree)) = Some (strip_tree tree) ->
  exists out,
    Scrape.remove_comments_docstrings_and_bodies ast_parse ast_unparse source
    = IO.Ok out
    /\ Scrape.remove_comments_docstrings_and_bodies ast_parse ast_unparse out
       = IO.Ok out.
Proof.
  intros Hparse Hclean Hback. exists (ast_unparse (strip_tree tree)).
  unfold Scrape.remove_comments_docstrings_and_bodies.
  rewrite Hparse, Hback. split; [reflexivity|].
  rewrite (strip_tree_idempotent tree Hclean). reflexivity.
Qed.

Lemma transform_idempotent_on_text_witness :
  exists out,
    Scrape.remove_comments_docstrings_and_bodies
      Samples.sample_parse Samples.sample_unparse Samples.documented_source
    = IO.Ok out
    /\ Scrape.remove_comments_docstrings_and_bodies
         Samples.sample_parse Samples.sample_unparse out = IO.Ok out
    /\ out = Samples.lines ["class A:";
                            "    x = 1";
                            EmptyString;
                            "    def f(self):";
                            "        pass"].
Proof.
  destruct (transform_idempotent_on_text Samples.sample_parse
              Samples.sample_unparse Samples.documented_source
              Samples.documented) as [out [H1 H2]].
  - reflexivity.
  - reflexivity.
  - reflexivity.
  - exists out. split; [exact H1|]. split; [exact H2|].
    vm_compute in H1. injection H1 as H1. rewrite <- H1. reflexivity.
Defined.

(** C2 as stated fails: on a module that begins with two string statements
    the first application takes the first string off and the second
    application takes the second one off.  Both outputs are trees with no
    empty body. *)
Lemma strip_twice_differs :
  strip_tree Samples.two_strings_and_more
  = PyModule [Samples.doc "b"; Simple "assign" [Name "x"; Constant (CNum 1)]]
  /\ strip_tree (strip_tree Samples.two_strings_and_more)
     = PyModule [Simple "assign" [Name "x"; Constant (CNum 1)]]
  /\ bodies_nonempty (strip_tree Samples.two_strings_and_more) = true
  /\ strip_tree (strip_tree Samples.two_strings_and_more)
     <> strip_tree Samples.two_strings_and_more.
Proof. repeat split. discriminate. Qed.

(** The same on text, for any parser and printer that bring these three trees
    back from their text. *)
Lemma strip_twice_differs_on_text
    (ast_parse : string -> option py_module)
    (ast_unparse : py_module -> string) :
  let m := Samples.two_strings_and_more in
  ast_parse (ast_unparse m) = Some m ->
  ast_parse (ast_unparse (strip_tree m)) = Some (strip_tree m) ->
  ast_parse (ast_unparse (strip_tree (strip_tree m)))
  = Some (strip_tree (strip_tree m)) ->
  exists once twice,
    Scrape.remove_comments_docstrings_and_bodies ast_parse ast_unparse
      (ast_unparse m) = IO.Ok once
    /\ Scrape.remove_comments_docstrings_and_bodies ast_parse ast_unparse once
       = IO.Ok twice
    /\ once <> twice.
Proof.
  intros m H0 H1 H2.
  exists (ast_unparse (strip_tree m)), (ast_unparse (strip_tree (strip_tree m))).
  unfold Scrape.remove_comments_docstrings_and_bodies.
  rewrite H0, H1. repeat split.
  intros Heq. rewrite Heq in H1. rewrite H2 in H1.
  subst m. discriminate H1.
Qed.

(** ** The body replacement in a class *)

Lemma visit_class_child_frame (c : stmt) :
  class_child_frame c (visit_class_child c).
Proof.
  destruct c; try (apply frame_other; reflexivity).
  - apply frame_function.
  - apply frame_async_function.
Qed.

Lemma visit_class_child_remove (c : stmt) :
  visit_class_child (remove_docstrings_stmt c)
  = if is_function_def c then visit c else remove_docstrings_stmt c.
Proof. destruct c; reflexivity. Qed.

Lemma In_pop_docstring (c : stmt) (body : list stmt) :
  In c body -> is_docstring_stmt c = false -> In c (pop_docstring body).
Proof.
  destruct body as [|s rest]; [intros []|]. simpl.
  destruct (is_docstring_stmt s) eqn:Hs; [|intros H _; exact H].
  intros [->|H] Hc; [congruence|exact H].
Qed.

(** C6, as the code has it: on a class definition the body replacement
    keeps the header of the class and goes through the statements of its body
    one by one: a function or coroutine function gets the placeholder body,
    every other statement is the same statement afterwards, so a class nested
    in the body is still there with its methods as they were.  In the output
    of the whole transform a statement of the class body that is not a
    function has been through the docstring removal and nothing else: a
    method of a nested class has its original body less the docstrings that
    pass takes off. *)
Theorem visit_ClassDef_frame
    (n : string) (b : list expr) (k : list (string * expr))
    (body : list stmt) (d : list expr) :
  exists body',
    visit (ClassDef n b k body d) = ClassDef n b k body' d
    /\ visit (ClassDef n b k body d) = visit_ClassDef (ClassDef n b k body d)
    /\ Forall2 class_child_frame body body'
    /\ (forall n' b' k' inner d',
          In (ClassDef n' b' k' inner d') body ->
          In (ClassDef n' b' k' inner d') body')
    /\ visit (remove_docstrings_stmt (ClassDef n b k body d))
       = ClassDef n b k
           (map (fun c => if is_function_def c then visit c
                          else remove_docstrings_stmt c)
                (pop_docstring body)) d
    /\ (forall n' b' k' inner d' g a method_body dd r,
          In (ClassDef n' b' k' inner d') body ->
          exists body_out inner_out,
            visit (remove_docstrings_stmt (ClassDef n b k body d))
            = ClassDef n b k body_out d
            /\ In (ClassDef n' b' k' inner_out d') body_out
            /\ (In (FunctionDef g a method_body dd r) inner ->
                In (FunctionDef g a
                      (map remove_docstrings_stmt (pop_docstring method_body))
                      dd r) inner_out)
            /\ (In (AsyncFunctionDef g a method_body dd r) inner ->
                In (AsyncFunctionDef g a
                      (map remove_docstrings_stmt (pop_docstring method_body))
                      dd r) inner_out)).
Proof.
  assert (Hout : visit (remove_docstrings_stmt (ClassDef n b k body d))
                 = ClassDef n b k
                     (map (fun c => if is_function_def c then visit c
                                    else remove_docstrings_stmt c)
                          (pop_docstring body)) d).
  { simpl. f_equal. rewrite map_map. apply map_ext. intros c.
    apply visit_class_child_remove. }
  exists (map visit_class_child body). repeat split.
  - induction body as [|c rest IH]; constructor.
    + apply visit_class_child_frame.
    + apply IH. simpl. f_equal. rewrite map_map. apply map_ext. intros c'.
      apply visit_class_child_remove.
  - intros n' b' k' inner d' Hin.
    apply in_map_iff. exists (ClassDef n' b' k' inner d').
    split; [reflexivity|exact Hin].
  - exact Hout.
  - intros n' b' k' inner d' g a method_body dd r Hclass.
    eexists. exists (map remove_docstrings_stmt (pop_docstring inner)).
    split; [exact Hout|]. split; [|split].
    + apply in_map_iff. exists (ClassDef n' b' k' inner d').
      split; [reflexivity|]. apply In_pop_docstring; [exact Hclass|reflexivity].
    + intros Hmethod.
      apply in_map_iff. exists (FunctionDef g a method_body dd r).
      split; [reflexivity|]. apply In_pop_docstring; [exact Hmethod|reflexivity].
    + intros Hmethod.
      apply in_map_iff. exists (AsyncFunctionDef g a method_body dd r).
      split; [reflexivity|]. apply In_pop_docstring; [exact Hmethod|reflexivity].
Qed.

(** C6 as stated fails: the method [g] of the class [Inner], nested in
    [Outer], does not keep its original body in the output: the docstring
    removal has taken its docstring off. *)
Lemma nested_method_loses_docstring :
  strip_tree (PyModule [Samples.outer_with_documented_method])
  = PyModule
      [ClassDef "Outer" [] []
         [ClassDef "Inner" [] []
            [FunctionDef "g" Samples.self_only
               [Samples.return_ (Constant (CNum 2))] [] None] []] []]
  /\ [Samples.return_ (Constant (CNum 2))]
     <> [Samples.doc "G."; Samples.return_ (Constant (CNum 2))]
  /\ strip_tree (PyModule [Samples.outer_with_documented_method])
     <> PyModule [Samples.outer_with_documented_method].
Proof. repeat split; discriminate. Qed.

(** ** The headers of the definitions *)

Lemma outer_signatures_docstring (s : stmt) :
  is_docstring_stmt s = true -> outer_signatures s = [].
Proof. destruct s; simpl; congruence. Qed.

Lemma signatures_docstring (s : stmt) :
  is_docstring_stmt s = true -> signatures s = [].
Proof. destruct s; simpl; congruence. Qed.

Lemma outer_signatures_remove (s : stmt) :
  outer_signatures (remove_docstrings_stmt s) = outer_signatures s.
Proof.
  induction s as [n a body d r IH|n a body d r IH|n b k body d IH
                 |e| |k ops|k ops blocks IH] using stmt_nested_ind;
    simpl; try reflexivity.
  - f_equal. apply flat_map_remove_docstrings;
      [apply outer_signatures_docstring|exact IH].
  - rewrite flat_map_map. apply flat_map_ext_Forall.
    eapply Forall_impl; [exact IH|]. intros l Hl. simpl in Hl.
    rewrite flat_map_map. apply flat_map_ext_Forall. exact Hl.
Qed.

Lemma signatures_remove (s : stmt) :
  signatures (remove_docstrings_stmt s) = signatures s.
Proof.
  induction s as [n a body d r IH|n a body d r IH|n b k body d IH
                 |e| |k ops|k ops blocks IH] using stmt_nested_ind;
    simpl; try reflexivity.
  1-3: f_equal; apply flat_map_remove_docstrings;
       [apply signatures_docstring|exact IH].
  rewrite flat_map_map. apply flat_map_ext_Forall.
  eapply Forall_impl; [exact IH|]. intros l Hl. simpl in Hl.
  rewrite flat_map_map. apply flat_map_ext_Forall. exact Hl.
Qed.

Lemma outer_signatures_class_child (c : stmt) :
  outer_signatures (visit_class_child c) = outer_signatures c.
Proof. destruct c; reflexivity. Qed.

Lemma outer_signatures_visit (s : stmt) :
  outer_signatures (visit s) = outer_signatures s.
Proof.
  induction s as [n a body d r IH|n a body d r IH|n b k body d IH
                 |e| |k ops|k ops blocks IH] using stmt_nested_ind;
    simpl; try reflexivity.
  - f_equal. rewrite flat_map_map. apply flat_map_ext.
    apply outer_signatures_class_child.
  - rewrite flat_map_map. apply flat_map_ext_Forall.
    eapply Forall_impl; [exact IH|]. intros l Hl. simpl in Hl.
    rewrite flat_map_map. apply flat_map_ext_Forall. exact Hl.
Qed.

Lemma flat_map_sublist {A B : Type} (f g : A -> list B) (l : list A) :
  Forall (fun x => f x `sublist_of` g x) l ->
  flat_map f l `sublist_of` flat_map g l.
Proof.
  induction 1 as [|x l Hx _ IH]; simpl; [constructor|].
  apply sublist_app; assumption.
Qed.

Lemma signatures_visit_sublist (s : stmt) :
  signatures (visit s) `sublist_of` signatures s.
Proof.
  induction s as [n a body d r IH|n a body d r IH|n b k body d IH
                 |e| |k ops|k ops blocks IH] using stmt_nested_ind;
    simpl; try reflexivity.
  - apply sublist_skip. apply sublist_nil_l.
  - apply sublist_skip. apply sublist_nil_l.
  - apply sublist_skip. rewrite flat_map_map. apply flat_map_sublist.
    eapply Forall_impl; [exact IH|]. intros c Hc. simpl in Hc.
    unfold visit_class_child. destruct (is_function_def c);
      [exact Hc|reflexivity].
  - rewrite flat_map_map. apply flat_map_sublist.
    eapply Forall_impl; [exact IH|]. intros l Hl. simpl in Hl.
    rewrite flat_map_map. apply flat_map_sublist. exact Hl.
Qed.

Lemma signatures_of_strip_tree (m : py_module) :
  flat_map outer_signatures (module_body (strip_tree m))
  = flat_map outer_signatures (module_body m)
  /\ flat_map signatures (module_body (strip_tree m))
     `sublist_of` flat_map signatures (module_body m).
Proof.
  destruct m as [body]. unfold strip_tree. simpl. split.
  - rewrite flat_map_map.
    rewrite (flat_map_ext _ outer_signatures)
      by (intros s; apply outer_signatures_visit).
    apply flat_map_remove_docstrings.
    + apply outer_signatures_docstring.
    + apply List.Forall_forall. intros s _. apply outer_signatures_remove.
  - rewrite flat_map_map.
    transitivity (flat_map signatures
                    (map remove_docstrings_stmt (pop_docstring body))).
    + apply flat_map_sublist. apply List.Forall_forall. intros s _.
      apply signatures_visit_sublist.
    + rewrite flat_map_remove_docstrings; [reflexivity| |].
      * apply signatures_docstring.
      * apply List.Forall_forall. intros s _. apply signatures_remove.
Qed.

(** C7, as the code has it: the serialized output of the transform is the
    text the printer gives for a tree in which the function and class
    definitions that are not inside the body of a function are those of the
    parsed input, in the same order, each with the name, parameter list,
    decorators, return annotation, bases and keywords the parser read, and
    which holds no definition that the input does not hold.  The output
    depends on the input through its tree only: two inputs that parse to the
    same tree give the same output, so the headers are spelled in the output
    as the printer spells them, whatever blanks or quotes the input used. *)
Theorem signatures_preserved
    (ast_parse : string -> option py_module)
    (ast_unparse : py_module -> string)
    (source : string) (tree : py_module) :
  ast_parse source = Some tree ->
  Scrape.remove_comments_docstrings_and_bodies ast_parse ast_unparse source
  = IO.Ok (ast_unparse (strip_tree tree))
  /\ flat_map outer_signatures (module_body (strip_tree tree))
     = flat_map outer_signatures (module_body tree)
  /\ flat_map signatures (module_body (strip_tree tree))
     `sublist_of` flat_map signatures (module_body tree)
  /\ forall other : string,
       ast_parse other = Some tree ->
       Scrape.remove_comments_docstrings_and_bodies ast_parse ast_unparse other
       = Scrape.remove_comments_docstrings_and_bodies
           ast_parse ast_unparse source.
Proof.
  intros Hparse. unfold Scrape.remove_comments_docstrings_and_bodies.
  rewrite Hparse. split; [reflexivity|].
  destruct (signatures_of_strip_tree tree) as [H1 H2].
  split; [exact H1|]. split; [exact H2|].
  intros other Hother. rewrite Hother. reflexivity.
Qed.

Lemma signatures_preserved_witness :
  Scrape.remove_comments_docstrings_and_bodies
    Samples.sample_parse Samples.sample_unparse Samples.documented_source
  = IO.Ok (Samples.lines ["class A:";
                          "    x = 1";
                          EmptyString;
                          "    def f(self):";
                          "        pass"])
  /\ flat_map outer_signatures (module_body (strip_tree Samples.documented))
     = [SigClass "A" [] [] []; SigFunction "f" Samples.self_only [] None].
Proof.
  destruct (signatures_preserved Samples.sample_parse Samples.sample_unparse
              Samples.documented_source Samples.documented)
    as [H1 [H2 _]].
  - reflexivity.
  - split; [rewrite H1; reflexivity|rewrite H2; reflexivity].
Defined.

(** C7 as stated fails, twice.  The name, the parameter and the decorator
    of a function defined inside the body of another function are not in the
    output.  And the text of a header is not kept: [def f( x ):] and
    [def f(x):] parse to the same tree, and the output for both spells the
    parameter list [(x)]. *)
Lemma nested_function_signature_lost :
  In (SigFunction "helper"
        (mk_arguments [] [mk_arg "y" None] None [] [] None [])
        [Name "cache"] None)
     (flat_map signatures (module_body Samples.nested_function))
  /\ flat_map signatures (module_body (strip_tree Samples.nested_function))
     = [SigFunction "outer"
          (mk_arguments [] [mk_arg "x" None] None [] [] None []) [] None]
  /\ flat_map signatures (module_body (strip_tree Samples.nested_function))
     <> flat_map signatures (module_body Samples.nested_function)
  /\ Samples.sample_parse Samples.spaced_source
     = Samples.sample_parse Samples.plain_source
  /\ Scrape.remove_comments_docstrings_and_bodies
       Samples.sample_parse Samples.sample_unparse Samples.spaced_source
     = IO.Ok (Samples.lines ["def f(x):"; "    pass"])
  /\ Text.contains "( x )" Samples.spaced_source = true
  /\ Text.contains "( x )" (Samples.lines ["def f(x):"; "    pass"]) = false.
Proof.
  repeat split.
  - simpl. right. left. reflexivity.
  - discriminate.
Qed.

(** C10: a class whose body is only a docstring is a tree with no empty
    body; its output has the class with no statement at all, which the grammar
    does not allow, so the text printed for it does not parse. *)
Theorem docstring_only_class_left_empty :
  exists m name text,
    m = PyModule [ClassDef name [] [] [Expr (Constant (CStr text))] []]
    /\ bodies_nonempty m = true
    /\ strip_tree m = PyModule [ClassDef name [] [] [] []]
    /\ bodies_nonempty (strip_tree m) = false
    /\ forall (ast_parse : string -> option py_module)
             (ast_unparse : py_module -> string) (source : string),
         ast_parse source = Some m ->
         ast_parse (ast_unparse (strip_tree m)) = None ->
         exists out,
           Scrape.remove_comments_docstrings_and_bodies
             ast_parse ast_unparse source = IO.Ok out
           /\ Scrape.remove_comments_docstrings_and_bodies
                ast_parse ast_unparse out = IO.Raise IO.SyntaxError.
Proof.
  exists Samples.docstring_only_class, "Marker", "Only a docstring.".
  repeat split.
  intros ast_parse ast_unparse source Hparse Hback.
  exists (ast_unparse (strip_tree Samples.docstring_only_class)).
  unfold Scrape.remove_comments_docstrings_and_bodies.
  rewrite Hparse, Hback. split; reflexivity.
Qed.

(** The nested class of the sample, in the output of the whole transform: the
    docstring of [Outer] is gone, [f] has the placeholder, and [Inner] with
    its method [g] is as it was. *)
Example nested_class_method_unstripped :
  strip_tree (PyModule [Samples.outer_class])
  = PyModule
      [ClassDef "Outer" [] []
         [Simple "assign" [Name "limit"; Constant (CNum 3)];
          Samples.inner_class;
          FunctionDef "f" Samples.self_only [Pass] [] None]
         []].
Proof. reflexivity. Qed.

(** ** [process_file] *)

Import IO.

(** What a run of [process_file] comes to, case by case. *)
Lemma process_file_cases
    (ast_parse : string -> option py_module)
    (ast_unparse : py_module -> string) (file_path : string) (w : world) :
  Scrape.process_file ast_parse ast_unparse file_path w
  = match files w !! file_path with
    | None => (Raise (FileNotFoundError file_path), w)
    | Some source_code =>
        match Scrape.remove_comments_docstrings_and_bodies
                ast_parse ast_unparse source_code with
        | Raise e => (Raise e, w)
        | Ok cleaned_code =>
            (Ok tt,
             mk_world (<[file_path := cleaned_code]> (files w)) (trees w)
               (stdout w
                ++ [("Comments, docstrings, and function bodies removed from "
                     ++ file_path)%string])
               (stderr w))
        end
    end.
Proof.
  unfold Scrape.process_file, bind, read_file, lift, write_file, print.
  destruct (files w !! file_path) as [source_code|]; [|reflexivity].
  destruct (Scrape.remove_comments_docstrings_and_bodies
              ast_parse ast_unparse source_code); reflexivity.
Qed.

(** C3: on a file whose content does not parse, [process_file] raises the
    parse error and the state is the one it started in: the file has its
    content, nothing was printed.  In any run, the files are changed only
    once the transform has returned its text. *)
Theorem process_file_parse_error
    (ast_parse : string -> option py_module)
    (ast_unparse : py_module -> string)
    (file_path source : string) (w : world) :
  files w !! file_path = Some source ->
  ast_parse source = None ->
  Scrape.process_file ast_parse ast_unparse file_path w = (Raise SyntaxError, w)
  /\ files (snd (Scrape.process_file ast_parse ast_unparse file_path w))
     !! file_path = Some source
  /\ forall w0 : world,
       files (snd (Scrape.process_file ast_parse ast_unparse file_path w0))
       <> files w0 ->
       exists source0 cleaned_code,
         files w0 !! file_path = Some source0
         /\ Scrape.remove_comments_docstrings_and_bodies
              ast_parse ast_unparse source0 = Ok cleaned_code
         /\ fst (Scrape.process_file ast_parse ast_unparse file_path w0)
            = Ok tt.
Proof.
  intros Hfile Hparse.
  assert (Hrun : Scrape.process_file ast_parse ast_unparse file_path w
                 = (Raise SyntaxError, w)).
  { rewrite process_file_cases, Hfile.
    unfold Scrape.remove_comments_docstrings_and_bodies.
    rewrite Hparse. reflexivity. }
  split; [exact Hrun|]. split; [rewrite Hrun; exact Hfile|].
  intros w0. rewrite process_file_cases.
  destruct (files w0 !! file_path) as [source0|]; [|simpl; congruence].
  destruct (Scrape.remove_comments_docstrings_and_bodies
              ast_parse ast_unparse source0) as [cleaned_code|e] eqn:Hclean;
    [|simpl; congruence].
  intros _. exists source0, cleaned_code. repeat split. exact Hclean.
Qed.

Lemma process_file_parse_error_witness :
  Scrape.process_file Samples.pass_only_parse Samples.pass_only_unparse
    "temp.py" Samples.unbalanced_world
  = (Raise SyntaxError, Samples.unbalanced_world)
  /\ files (snd (Scrape.process_file Samples.pass_only_parse
                   Samples.pass_only_unparse "temp.py"
                   Samples.unbalanced_world))
     !! "temp.py" = Some "def f(:".
Proof.
  destruct (process_file_parse_error Samples.pass_only_parse
              Samples.pass_only_unparse "temp.py" "def f(:"
              Samples.unbalanced_world) as [H1 [H2 _]].
  - apply lookup_singleton_eq.
  - reflexivity.
  - split; [exact H1|exact H2].
Defined.

(** ** The command line of the flatteners *)

Lemma classify_options (arguments : list string) :
  Forall FilesOnly.is_option_word arguments ->
  forallb FilesOnly.is_modelled (map FilesOnly.classify arguments) = true
  /\ FilesOnly.positionals (map FilesOnly.classify arguments) = []
  /\ existsb FilesOnly.is_help (map FilesOnly.classify arguments)
     = existsb FilesOnly.is_help_word arguments.
Proof.
  induction 1 as [|a arguments Ha _ [IH1 [IH2 IH3]]]; [repeat split|].
  destruct Ha as [-> | [-> | [-> | ->]]]; simpl;
    rewrite IH1, IH2, ?IH3; repeat split.
Qed.

Lemma parse_args_options
    (format_usage format_help : string -> string)
    (prog : string) (arguments : list string) :
  Forall FilesOnly.is_option_word arguments ->
  FilesOnly.parse_args format_usage format_help prog arguments
  = Some (if existsb FilesOnly.is_help_word arguments
          then bind (print (format_help prog)) (fun _ => sys_exit 0%Z)
          else FilesOnly.parser_error format_usage prog
                 "the following arguments are required: directory").
Proof.
  intros H. destruct (classify_options arguments H) as [H1 [H2 H3]].
  unfold FilesOnly.parse_args. rewrite H1, H2, H3. simpl.
  destruct (existsb FilesOnly.is_help_word arguments); reflexivity.
Qed.

(** C8, as the code has it: without a directory argument [app.py] prints
    its usage line and exits with status 1.  [files_only.py], whose command
    line is read by [argparse], given no argument or only options
    ([-t], [--include-tests], [-h], [--help], in any number and order),
    prints the usage of [argparse] and the error for the missing argument on
    the standard error and exits with status 2, unless [-h] or [--help] is
    among them: then it prints the help on the standard output and exits with
    status 0.  Neither script touches a file.  The program is named by the
    base name of the path it was started under. *)
Theorem no_directory_argument
    (str_lower format_usage format_help : string -> string)
    (argv : list string) (script : string) (arguments : list string)
    (w : world) :
  length argv < 2 ->
  Forall FilesOnly.is_option_word arguments ->
  App.main argv w
  = (Raise (SystemExit 1),
     mk_world (files w) (trees w) (stdout w ++ [App.usage]) (stderr w))
  /\ exists run,
       FilesOnly.main str_lower format_usage format_help (script :: arguments)
       = Some run
       /\ run w
          = if existsb FilesOnly.is_help_word arguments
            then (Raise (SystemExit 0),
                  mk_world (files w) (trees w)
                    (stdout w ++ [format_help (Text.basename script)])
                    (stderr w))
            else (Raise (SystemExit 2),
                  mk_world (files w) (trees w) (stdout w)
                    (stderr w
                     ++ [format_usage (Text.basename script);
                         (Text.basename script ++ ": error: "
                          ++ "the following arguments are required: directory")
                         %string])).
Proof.
  intros Hargv Hoptions. split.
  - unfold App.main.
    destruct (Nat.ltb_spec (length argv) 2) as [_|Hge]; [reflexivity|lia].
  - eexists. split.
    + unfold FilesOnly.main.
      rewrite (parse_args_options format_usage format_help
                 (Text.basename script) arguments Hoptions).
      reflexivity.
    + destruct (existsb FilesOnly.is_help_word arguments); [reflexivity|].
      unfold FilesOnly.parser_error, bind, print_stderr, sys_exit, raise.
      simpl. rewrite <- app_assoc. reflexivity.
Qed.

Lemma no_directory_argument_witness :
  exit_code (fst (App.main ["app.py"] Samples.unbalanced_world)) = 1%Z
  /\ exists run,
       FilesOnly.main Text.lower Samples.sample_usage Samples.sample_help
         ["./tools/files_only.py"; "-t"; "--help"] = Some run
       /\ run Samples.unbalanced_world
          = (Raise (SystemExit 0),
             mk_world (files Samples.unbalanced_world) ∅
               [Samples.sample_help "files_only.py"] []).
Proof.
  destruct (no_directory_argument Text.lower Samples.sample_usage
              Samples.sample_help ["app.py"] "./tools/files_only.py"
              ["-t"; "--help"] Samples.unbalanced_world) as [H [run [H1 H2]]].
  - simpl. lia.
  - constructor; [left; reflexivity|].
    constructor; [right; right; right; reflexivity|]. constructor.
  - split; [rewrite H; reflexivity|].
    exists run. split; [exact H1|exact H2].
Defined.

(** C8 as stated fails for [files_only.py]: started with no argument, it
    exits with status 2, the status of [argparse] for a command line it
    rejects, and prints nothing on the standard output. *)
Lemma files_only_exits_with_2 :
  exists run,
    FilesOnly.main Text.lower Samples.sample_usage Samples.sample_help
      ["files_only.py"] = Some run
    /\ fst (run Samples.empty_world) = Raise (SystemExit 2)
    /\ exit_code (fst (run Samples.empty_world)) = 2%Z
    /\ exit_code (fst (run Samples.empty_world)) <> 1%Z
    /\ stdout (snd (run Samples.empty_world)) = []
    /\ stderr (snd (run Samples.empty_world))
       = ["usage: files_only.py [-h] [-t] directory";
          "files_only.py: error: the following arguments are required: directory"].
Proof.
  eexists. split; [reflexivity|]. repeat split. discriminate.
Qed.

(** ** The walk of [files_only.py] *)

Import Walk.

Lemma skip_file_output (str_lower : string -> string) (include_tests : bool) :
  FilesOnly.skip_file str_lower include_tests "codebase_content.txt" = true.
Proof.
  unfold FilesOnly.skip_file. rewrite String.eqb_refl. apply orb_true_r.
Qed.

Lemma skip_file_false_not_output (str_lower : string -> string) 
    (include_tests : bool) (filename : string) :
  FilesOnly.skip_file str_lower include_tests filename = false ->
  filename <> "codebase_content.txt".
Proof.
  intros H ->. rewrite skip_file_output in H. discriminate.
Qed.

(** The files the loop gets to in one directory all pass the test of the
    [continue]. *)
Lemma visit_files_not_skipped (skip : string -> bool) (t : triple)
    (v : visited) :
  In v (visit_files skip t) ->
  exists filename,
    relative v = below_root t ++ [filename] /\ skip filename = false.
Proof.
  unfold visit_files. intros Hin. apply in_flat_map in Hin.
  destruct Hin as [[filename file] [_ Hv]].
  destruct (skip filename) eqn:Hskip; [contradiction|].
  destruct Hv as [<-|[]]. exists filename. split; [reflexivity|exact Hskip].
Qed.

Lemma flat_map_flat_map {A B C : Type} (f : A -> list B) (g : B -> list C)
    (l : list A) :
  flat_map g (flat_map f l) = flat_map (fun x => flat_map g (f x)) l.
Proof.
  induction l as [|x l IH]; [reflexivity|].
  simpl. rewrite flat_map_app, IH. reflexivity.
Qed.

(** Taking the files of a skipped name out of a directory does not change what
    the loop gets to in it. *)
Lemma visit_files_without_file (skip : string -> bool) (name : string)
    (here : string) (names : list string) (entries : list entry) :
  skip name = true ->
  visit_files skip
    (mk_triple here names (files_in (flat_map (without_file name) entries)))
  = visit_files skip (mk_triple here names (files_in entries)).
Proof.
  intros Hskip. unfold visit_files, files_in. simpl.
  induction entries as [|e rest IH]; [reflexivity|].
  simpl. rewrite !flat_map_app, IH. f_equal.
  destruct e as [n file|n sub]; simpl; [|reflexivity].
  destruct (String.eqb_spec n name) as [->|Hne]; simpl.
  - rewrite Hskip. reflexivity.
  - reflexivity.
Qed.

Lemma walk_entry_without_file (keep skip : string -> bool) (name : string)
    (e : entry) :
  skip name = true ->
  forall parent above,
    flat_map (visit_files skip)
      (flat_map (walk_entry keep parent above) (without_file name e))
    = flat_map (visit_files skip) (walk_entry keep parent above e).
Proof.
  intros Hskip.
  induction e as [n file|n entries IH] using entry_nested_ind;
    intros parent above.
  - simpl. destruct (String.eqb n name); reflexivity.
  - simpl. rewrite app_nil_r. destruct (keep n); [|reflexivity].
    simpl. rewrite (visit_files_without_file skip name _ _ entries Hskip).
    f_equal.
    rewrite (flat_map_flat_map (without_file name)).
    rewrite !flat_map_flat_map.
    apply flat_map_ext_Forall.
    eapply Forall_impl; [exact IH|]. intros c Hc. simpl in Hc.
    apply Hc.
Qed.

Lemma visited_files_without_file (keep skip : string -> bool) (name : string)
    (root_dir : string) (entries : list entry) :
  skip name = true ->
  visited_files keep skip root_dir (flat_map (without_file name) entries)
  = visited_files keep skip root_dir entries.
Proof.
  intros Hskip. unfold visited_files, os_walk. simpl.
  rewrite (visit_files_without_file skip name _ _ entries Hskip). f_equal.
  rewrite (flat_map_flat_map (without_file name)).
  rewrite !flat_map_flat_map.
  apply flat_map_ext. intros c.
  apply walk_entry_without_file. exact Hskip.
Qed.

(** C9: whatever [include_tests] is, no file the walk of [files_only.py]
    gets to is named [codebase_content.txt]; the files it gets to, and so the
    artifact, are those of the same directory without any file of that
    name. *)
Theorem output_file_never_collected
    (str_lower : string -> string) 
    (include_tests : bool) (root_dir : string) (entries : list entry)
    (w : world) :
  let keep := FilesOnly.keep_dir str_lower include_tests in
  let skip := FilesOnly.skip_file str_lower include_tests in
  let vs := visited_files keep skip root_dir entries in
  Forall (fun v => List.last (relative v) EmptyString <> "codebase_content.txt") vs
  /\ visited_files keep skip root_dir
       (flat_map (without_file "codebase_content.txt") entries) = vs
  /\ (trees w !! root_dir = Some entries ->
      fst (FilesOnly.extract_codebase_content str_lower root_dir include_tests w)
      = Ok (artifact vs)).
Proof.
  intros keep skip vs. repeat split.
  - apply List.Forall_forall. intros v Hin.
    unfold vs, visited_files in Hin. apply in_flat_map in Hin.
    destruct Hin as [t [_ Hv]].
    apply visit_files_not_skipped in Hv.
    destruct Hv as [filename [-> Hskip]].
    rewrite List.last_last.
    apply (skip_file_false_not_output str_lower include_tests). exact Hskip.
  - apply visited_files_without_file. apply skip_file_output.
  - intros Htree. unfold FilesOnly.extract_codebase_content, extract_with.
    rewrite Htree. reflexivity.
Qed.

(** The walk on the sample directory, tests left out: the two files named
    [codebase_content.txt], the directory [tests] and the directory [.git]
    are not in the artifact. *)
Example project_artifact :
  artifact (visited_files (FilesOnly.keep_dir Text.lower false)
              (FilesOnly.skip_file Text.lower false) "proj" Samples.project)
  = ("## main.py" ++ Text.nl ++ Text.nl ++ "print(1)" ++ Text.nl
     ++ Text.nl
     ++ "## src/util.py" ++ Text.nl ++ Text.nl ++ "x = 1" ++ Text.nl)%string.
Proof. reflexivity. Qed.

(** [app.py] has no such test: it collects the artifact of an earlier run. *)
Example app_collects_output_file :
  In "codebase_content.txt"
     (map (fun v => List.last (relative v) EmptyString)
        (visited_files (fun _ => true) (fun _ => false) "proj" Samples.project)).
Proof. simpl. right. left. reflexivity. Qed.

(** * Further properties of the passes *)

(** X1: the body replacement is idempotent, on a statement and on a module:
    a second traversal finds every function it reaches with the placeholder
    already. *)
Theorem body_replacement_idempotent (m : py_module) :
  visit_Module (visit_Module m) = visit_Module m
  /\ forall s : stmt, visit (visit s) = visit s.
Proof.
  split; [|exact visit_idempotent].
  destruct m as [body]. simpl. f_equal. rewrite map_map.
  apply map_ext. exact visit_idempotent.
Qed.

(** X2: replacing the bodies before the transform changes nothing of its
    output: the output does not depend on what the bodies of the reached
    functions hold, docstrings included. *)
Theorem strip_tree_after_body_replacement (m : py_module) :
  strip_tree (visit_Module m) = strip_tree m.
Proof.
  unfold strip_tree.
  rewrite <- (visit_Module_remove_docstrings m).
  apply visit_Module_idempotent.
Qed.

Lemma map_eq_id_Forall {A : Type} (f : A -> A) (l : list A) :
  map f l = l -> Forall (fun x => f x = x) l.
Proof.
  induction l as [|x l IH]; [constructor|].
  simpl. intros H. injection H as Hx Hl. constructor; [exact Hx|exact (IH Hl)].
Qed.

(** A body from which the [pop] took a statement is shorter, whatever is
    mapped over the rest. *)
Lemma map_pop_docstring_eq (f : stmt -> stmt) (body : list stmt) :
  map f (pop_docstring body) = body ->
  starts_with_docstring body = false /\ map f body = body.
Proof.
  destruct body as [|s rest]; [intros _; split; reflexivity|].
  simpl. destruct (is_docstring_stmt s) eqn:Hs.
  - intros H. apply (f_equal (@length stmt)) in H.
    rewrite length_map in H. simpl in H. lia.
  - intros H. split; [reflexivity|exact H].
Qed.

Lemma Forall_forallb_true (p : stmt -> bool) (l : list stmt) :
  Forall (fun c => p c = true) l -> forallb p l = true.
Proof. apply forallb_Forall_true. Qed.

Lemma remove_docstrings_stmt_fixed (s : stmt) :
  remove_docstrings_stmt s = s -> no_leading_docstring_stmt s = true.
Proof.
  induction s as [n a body d r IH|n a body d r IH|n b k body d IH
                 |e| |k ops|k ops blocks IH] using stmt_nested_ind;
    simpl; try reflexivity.
  1-3: intros H; injection H as H;
       apply map_pop_docstring_eq in H; destruct H as [H1 H2];
       rewrite H1; simpl; apply Forall_forallb_true;
       apply map_eq_id_Forall in H2;
       apply List.Forall_forall; intros c Hc;
       rewrite List.Forall_forall in IH, H2;
       apply (IH c Hc), (H2 c Hc).
  intros H. injection H as H.
  apply map_eq_id_Forall in H.
  apply forallb_Forall_true. apply List.Forall_forall. intros l Hl.
  rewrite List.Forall_forall in IH, H.
  specialize (IH l Hl). specialize (H l Hl). simpl in H.
  apply map_eq_id_Forall in H.
  apply Forall_forallb_true. apply List.Forall_forall. intros c Hc.
  rewrite List.Forall_forall in IH, H.
  apply (IH c Hc), (H c Hc).
Qed.

(** X3: the docstring removal leaves a tree as it is exactly when no module,
    class or function body of the tree begins with a string-literal
    expression statement. *)
Theorem remove_docstrings_fixed_iff (m : py_module) :
  remove_docstrings m = m <-> no_leading_docstring m = true.
Proof.
  split; [|apply remove_docstrings_id].
  destruct m as [body]. unfold no_leading_docstring. simpl.
  intros H. injection H as H.
  apply map_pop_docstring_eq in H. destruct H as [H1 H2].
  rewrite H1. simpl. apply Forall_forallb_true.
  apply map_eq_id_Forall in H2.
  eapply Forall_impl; [exact H2|]. intros c Hc.
  apply remove_docstrings_stmt_fixed. exact Hc.
Qed.

(** X4: a second application of the two passes gives the tree of the first
    one exactly when the first output has no body that begins with a
    string-literal expression statement. *)
Theorem strip_tree_twice_iff (m : py_module) :
  strip_tree (strip_tree m) = strip_tree m
  <-> no_leading_docstring (strip_tree m) = true.
Proof.
  assert (H : strip_tree (strip_tree m) = remove_docstrings (strip_tree m)).
  { unfold strip_tree at 1.
    rewrite (visit_Module_remove_docstrings (strip_tree m)).
    unfold strip_tree at 1. rewrite visit_Module_idempotent. reflexivity. }
  rewrite H. split.
  - intros Hfix. destruct (strip_tree m) as [body]. revert Hfix.
    unfold no_leading_docstring. simpl. intros Hfix. injection Hfix as Hfix.
    apply map_pop_docstring_eq in Hfix. destruct Hfix as [H1 H2].
    rewrite H1. simpl. apply Forall_forallb_true.
    apply map_eq_id_Forall in H2.
    eapply Forall_impl; [exact H2|]. intros c Hc.
    apply remove_docstrings_stmt_fixed. exact Hc.
  - apply remove_docstrings_id.
Qed.

(** X5: the docstring removal loses no definition: the functions and
    classes of the tree, at every depth, are the same before and after, in
    the same order and with the same headers. *)
Theorem docstring_removal_keeps_definitions (m : py_module) :
  flat_map signatures (module_body (remove_docstrings m))
  = flat_map signatures (module_body m).
Proof.
  destruct m as [body]. simpl.
  apply flat_map_remove_docstrings.
  - apply signatures_docstring.
  - apply List.Forall_forall. intros s _. apply signatures_remove.
Qed.

(** ** Empty bodies *)

Lemma forallb_andb_true (p q : stmt -> bool) (l : list stmt) :
  forallb p l = true -> forallb q l = true ->
  forallb (fun c => p c && q c) l = true.
Proof.
  induction l as [|c l IH]; [reflexivity|]. simpl.
  intros Hp Hq. apply andb_true_iff in Hp, Hq.
  destruct Hp as [Hp1 Hp2], Hq as [Hq1 Hq2].
  rewrite Hp1, Hq1, (IH Hp2 Hq2). reflexivity.
Qed.

Lemma bodies_nonempty_visit (s : stmt) :
  bodies_nonempty_stmt s = true -> bodies_nonempty_stmt (visit s) = true.
Proof.
  induction s as [n a body d r IH|n a body d r IH|n b k body d IH
                 |e| |k ops|k ops blocks IH] using stmt_nested_ind;
    simpl; try reflexivity.
  - intros H. apply andb_true_iff in H. destruct H as [H1 H2].
    rewrite length_map, H1. simpl.
    apply (forallb_map_Forall bodies_nonempty_stmt); [|exact H2].
    eapply Forall_impl; [exact IH|]. intros c Hc Hbn. simpl in Hc.
    destruct (is_function_def c); [apply Hc; exact Hbn|exact Hbn].
  - intros H. rewrite forallb_forall in H.
    apply forallb_Forall_true. apply List.Forall_forall.
    intros l' Hin. apply in_map_iff in Hin. destruct Hin as [l [<- Hl]].
    rewrite List.Forall_forall in IH.
    apply (forallb_map_Forall bodies_nonempty_stmt);
      [apply (IH l Hl)|apply (H l Hl)].
Qed.

(** X6: the body replacement alone never leaves a body empty: on a tree
    with no empty function or class body its output has none either. *)
Theorem body_replacement_keeps_bodies_nonempty (m : py_module) :
  bodies_nonempty m = true -> bodies_nonempty (visit_Module m) = true.
Proof.
  destruct m as [body]. unfold bodies_nonempty. simpl.
  apply (forallb_map_Forall bodies_nonempty_stmt).
  apply List.Forall_forall. intros c _. apply bodies_nonempty_visit.
Qed.

Lemma body_replacement_keeps_bodies_nonempty_witness :
  bodies_nonempty (visit_Module (PyModule [Samples.outer_class])) = true.
Proof.
  apply (body_replacement_keeps_bodies_nonempty
           (PyModule [Samples.outer_class])).
  reflexivity.
Defined.

Lemma pop_docstring_nonempty (body : list stmt) :
  Nat.eqb (length body) 0 = false ->
  is_docstring_only body = false ->
  Nat.eqb (length (pop_docstring body)) 0 = false.
Proof.
  destruct body as [|s1 [|s2 rest]]; simpl; try congruence.
  - intros _ ->. reflexivity.
  - intros _ _. destruct (is_docstring_stmt s1); reflexivity.
Qed.

Lemma bodies_nonempty_remove (s : stmt) :
  bodies_nonempty_stmt s && no_docstring_only_body_stmt s = true ->
  bodies_nonempty_stmt (remove_docstrings_stmt s) = true.
Proof.
  induction s as [n a body d r IH|n a body d r IH|n b k body d IH
                 |e| |k ops|k ops blocks IH] using stmt_nested_ind;
    simpl; try reflexivity.
  1-3: intros H; apply andb_true_iff in H; destruct H as [Hb Hd];
       apply andb_true_iff in Hb, Hd;
       destruct Hb as [Hb1 Hb2], Hd as [Hd1 Hd2];
       apply negb_true_iff in Hb1, Hd1;
       rewrite length_map, (pop_docstring_nonempty body Hb1 Hd1); simpl;
       apply (forallb_map_Forall
                (fun c => bodies_nonempty_stmt c
                          && no_docstring_only_body_stmt c));
       [ apply Forall_pop_docstring; exact IH
       | apply forallb_pop_docstring; apply forallb_andb_true; assumption ].
  intros H. apply andb_true_iff in H. destruct H as [Hb Hd].
  rewrite forallb_forall in Hb, Hd.
  apply forallb_Forall_true. apply List.Forall_forall.
  intros l' Hin. apply in_map_iff in Hin. destruct Hin as [l [<- Hl]].
  rewrite List.Forall_forall in IH.
  apply (forallb_map_Forall
           (fun c => bodies_nonempty_stmt c && no_docstring_only_body_stmt c));
    [apply (IH l Hl)|].
  apply forallb_andb_true; [apply (Hb l Hl)|apply (Hd l Hl)].
Qed.

(** X7: the output of the two passes has no empty function or class body
    whenever the input has none and no function or class body of the input is
    a docstring and nothing else. *)
Theorem strip_tree_keeps_bodies_nonempty (m : py_module) :
  bodies_nonempty m = true ->
  no_docstring_only_body m = true ->
  bodies_nonempty (strip_tree m) = true.
Proof.
  destruct m as [body].
  unfold bodies_nonempty, no_docstring_only_body, strip_tree. simpl.
  intros Hb Hd.
  apply (forallb_map_Forall bodies_nonempty_stmt).
  { apply List.Forall_forall. intros c _. apply bodies_nonempty_visit. }
  apply (forallb_map_Forall
           (fun c => bodies_nonempty_stmt c && no_docstring_only_body_stmt c)).
  { apply List.Forall_forall. intros c _. apply bodies_nonempty_remove. }
  apply forallb_pop_docstring. apply forallb_andb_true; assumption.
Qed.

Lemma strip_tree_keeps_bodies_nonempty_witness :
  bodies_nonempty (strip_tree Samples.documented) = true.
Proof.
  apply (strip_tree_keeps_bodies_nonempty Samples.documented); reflexivity.
Defined.

(** ** The number of statements *)

Lemma statements_positive (s : stmt) : 1 <= statements s.
Proof. destruct s; simpl; lia. Qed.

Lemma list_sum_map_le {A : Type} (f g : A -> nat) (l : list A) :
  Forall (fun x => f x <= g x) l ->
  list_sum (map f l) <= list_sum (map g l).
Proof. induction 1 as [|x l Hx _ IH]; simpl; lia. Qed.

Lemma list_sum_pop_docstring (body : list stmt) :
  list_sum (map statements (pop_docstring body))
  <= list_sum (map statements body).
Proof.
  destruct body as [|s rest]; [reflexivity|]. simpl.
  destruct (is_docstring_stmt s); simpl; lia.
Qed.

Lemma statements_remove (s : stmt) :
  statements (remove_docstrings_stmt s) <= statements s.
Proof.
  induction s as [n a body d r IH|n a body d r IH|n b k body d IH
                 |e| |k ops|k ops blocks IH] using stmt_nested_ind;
    simpl; try lia.
  1-3: apply le_n_S; rewrite map_map;
       etransitivity; [|apply list_sum_pop_docstring];
       apply list_sum_map_le; apply Forall_pop_docstring; exact IH.
  apply le_n_S. rewrite map_map. apply list_sum_map_le.
  eapply Forall_impl; [exact IH|]. intros l Hl. simpl in Hl.
  rewrite map_map. apply list_sum_map_le. exact Hl.
Qed.

Lemma list_sum_nonempty (body : list stmt) :
  Nat.eqb (length body) 0 = false -> 1 <= list_sum (map statements body).
Proof.
  destruct body as [|s rest]; simpl; [congruence|].
  intros _. pose proof (statements_positive s). lia.
Qed.

Lemma list_sum_map_le_forallb (p : stmt -> bool) (f : stmt -> stmt)
    (l : list stmt) :
  Forall (fun c => p c = true -> statements (f c) <= statements c) l ->
  forallb p l = true ->
  list_sum (map statements (map f l)) <= list_sum (map statements l).
Proof.
  induction 1 as [|c l Hc _ IH]; [reflexivity|]. simpl.
  intros H. apply andb_true_iff in H. destruct H as [H1 H2].
  specialize (Hc H1). specialize (IH H2). lia.
Qed.

Lemma statements_visit (s : stmt) :
  bodies_nonempty_stmt s = true -> statements (visit s) <= statements s.
Proof.
  induction s as [n a body d r IH|n a body d r IH|n b k body d IH
                 |e| |k ops|k ops blocks IH] using stmt_nested_ind;
    simpl; try lia.
  - intros H. apply andb_true_iff in H. destruct H as [H1 _].
    apply negb_true_iff in H1. pose proof (list_sum_nonempty body H1). lia.
  - intros H. apply andb_true_iff in H. destruct H as [H1 _].
    apply negb_true_iff in H1. pose proof (list_sum_nonempty body H1). lia.
  - intros H. apply andb_true_iff in H. destruct H as [_ H2].
    apply le_n_S.
    apply (list_sum_map_le_forallb bodies_nonempty_stmt); [|exact H2].
    eapply Forall_impl; [exact IH|]. intros c Hc Hbn. simpl in Hc.
    destruct (is_function_def c); [apply Hc; exact Hbn|reflexivity].
  - intros H. rewrite forallb_forall in H. apply le_n_S.
    rewrite map_map. apply list_sum_map_le.
    apply List.Forall_forall. intros l Hl.
    rewrite List.Forall_forall in IH.
    apply (list_sum_map_le_forallb bodies_nonempty_stmt);
      [apply (IH l Hl)|apply (H l Hl)].
Qed.

(** X8: on a tree with no empty function or class body the two passes add
    no statement: the output has at most as many statements as the input,
    counted at every depth. *)
Theorem strip_tree_adds_no_statement (m : py_module) :
  bodies_nonempty m = true ->
  module_statements (strip_tree m) <= module_statements m.
Proof.
  intros Hb. unfold strip_tree.
  rewrite (visit_Module_remove_docstrings m).
  destruct m as [body]. unfold module_statements, bodies_nonempty in *.
  simpl in *.
  transitivity (list_sum (map statements (map visit body))).
  - rewrite map_map.
    etransitivity; [|apply list_sum_pop_docstring].
    apply list_sum_map_le. apply List.Forall_forall. intros c _.
    apply statements_remove.
  - apply (list_sum_map_le_forallb bodies_nonempty_stmt); [|exact Hb].
    apply List.Forall_forall. intros c _. apply statements_visit.
Qed.

Lemma strip_tree_adds_no_statement_witness :
  module_statements (strip_tree Samples.documented)
  <= module_statements Samples.documented.
Proof.
  apply (strip_tree_adds_no_statement Samples.documented). reflexivity.
Defined.

(** * Further properties of the walk *)

Lemma length_visit_files_no_skip (t : triple) :
  length (visit_files (fun _ => false) t) = length (filenames t).
Proof.
  unfold visit_files. induction (filenames t) as [|[filename file] l IH];
    [reflexivity|]. simpl. rewrite IH. reflexivity.
Qed.

Lemma files_in_cons (e : entry) (entries : list entry) :
  files_in (e :: entries) = files_in [e] ++ files_in entries.
Proof. unfold files_in. simpl. rewrite app_nil_r. reflexivity. Qed.

(** The files met below a list of entries, with the files of the list
    itself. *)
Lemma count_files_listing (parent : string) (above : list string)
    (entries : list entry) :
  Forall (fun e => forall parent above,
            length (files_in [e])
            + length (flat_map (visit_files (fun _ => false))
                        (walk_entry (fun _ => true) parent above e))
            = count_files e) entries ->
  length (files_in entries)
  + length (flat_map (visit_files (fun _ => false))
              (flat_map (walk_entry (fun _ => true) parent above) entries))
  = list_sum (map count_files entries).
Proof.
  induction 1 as [|e entries He _ IH]; [reflexivity|].
  rewrite files_in_cons. simpl flat_map. simpl map. simpl list_sum.
  rewrite flat_map_app, !length_app.
  specialize (He parent above). lia.
Qed.

Lemma count_files_walk_entry (e : entry) :
  forall parent above,
    length (files_in [e])
    + length (flat_map (visit_files (fun _ => false))
                (walk_entry (fun _ => true) parent above e))
    = count_files e.
Proof.
  induction e as [n file|n entries IH] using entry_nested_ind;
    intros parent above; [reflexivity|].
  simpl. rewrite length_app, length_visit_files_no_skip. simpl.
  apply count_files_listing. exact IH.
Qed.

(** X12: the walk of [app.py] gets to every file of the directory, at every
    depth, once: the number of files it visits is the number of files of the
    tree. *)
Theorem app_visits_every_file (root_dir : string) (entries : list entry) :
  length (visited_files (fun _ => true) (fun _ => false) root_dir entries)
  = list_sum (map count_files entries).
Proof.
  unfold visited_files, os_walk. simpl.
  rewrite length_app, length_visit_files_no_skip. simpl.
  apply count_files_listing.
  apply List.Forall_forall. intros e _. apply count_files_walk_entry.
Qed.

(** ** Stricter tests give fewer files *)

Section Monotone.
Variables keep1 keep2 skip1 skip2 : string -> bool.
Hypothesis keep_le : forall d, keep1 d = true -> keep2 d = true.
Hypothesis skip_ge : forall f, skip2 f = true -> skip1 f = true.

Lemma visit_files_sublist (t : triple) :
  visit_files skip1 t `sublist_of` visit_files skip2 t.
Proof using keep_le skip_ge.
  unfold visit_files. apply flat_map_sublist.
  apply List.Forall_forall. intros [filename file] _.
  destruct (skip1 filename) eqn:H1; [apply sublist_nil_l|].
  destruct (skip2 filename) eqn:H2; [|reflexivity].
  rewrite (skip_ge filename H2) in H1. discriminate.
Qed.

Lemma walk_entry_sublist (e : entry) :
  forall parent above,
    flat_map (visit_files skip1) (walk_entry keep1 parent above e)
    `sublist_of` flat_map (visit_files skip2) (walk_entry keep2 parent above e).
Proof using keep_le skip_ge.
  induction e as [n file|n entries IH] using entry_nested_ind;
    intros parent above; [reflexivity|].
  simpl. destruct (keep1 n) eqn:H1; [|apply sublist_nil_l].
  rewrite (keep_le n H1). simpl.
  apply sublist_app; [apply visit_files_sublist|].
  rewrite !flat_map_flat_map. apply flat_map_sublist.
  eapply Forall_impl; [exact IH|]. intros c Hc. apply Hc.
Qed.

Lemma visited_files_sublist (root_dir : string) (entries : list entry) :
  visited_files keep1 skip1 root_dir entries
  `sublist_of` visited_files keep2 skip2 root_dir entries.
Proof using keep_le skip_ge.
  unfold visited_files, os_walk. simpl.
  apply sublist_app; [apply visit_files_sublist|].
  rewrite !flat_map_flat_map. apply flat_map_sublist.
  apply List.Forall_forall. intros c _. apply walk_entry_sublist.
Qed.
End Monotone.

Lemma keep_dir_include_tests (str_lower : string -> string) (d : string) :
  FilesOnly.keep_dir str_lower false d = true -> FilesOnly.keep_dir str_lower true d = true.
Proof.
  unfold FilesOnly.keep_dir. intros H. apply andb_true_iff in H.
  destruct H as [H _]. rewrite H. reflexivity.
Qed.

Lemma skip_file_include_tests (str_lower : string -> string) (f : string) :
  FilesOnly.skip_file str_lower true f = true -> FilesOnly.skip_file str_lower false f = true.
Proof.
  unfold FilesOnly.skip_file. simpl. intros ->. apply orb_true_r.
Qed.

(** X13: the tests of [files_only.py] only take files away and keep the
    order: what it visits without [--include-tests] is a subsequence of what
    it visits with it, which is a subsequence of what [app.py] visits. *)
Theorem filters_only_remove
    (str_lower : string -> string) (root_dir : string) (entries : list entry) :
  visited_files (FilesOnly.keep_dir str_lower false) (FilesOnly.skip_file str_lower false)
    root_dir entries
  `sublist_of`
  visited_files (FilesOnly.keep_dir str_lower true) (FilesOnly.skip_file str_lower true)
    root_dir entries
  /\ visited_files (FilesOnly.keep_dir str_lower true) (FilesOnly.skip_file str_lower true)
       root_dir entries
     `sublist_of`
     visited_files (fun _ => true) (fun _ => false) root_dir entries.
Proof.
  split.
  - apply visited_files_sublist.
    + apply keep_dir_include_tests.
    + apply skip_file_include_tests.
  - apply visited_files_sublist.
    + reflexivity.
    + discriminate.
Qed.

(** ** What holds of every directory the walk enters *)

Import Text.

Section WalkInvariant.
Variable keep : string -> bool.
Variable Q : string -> list string -> Prop.
Hypothesis Q_step : forall parent above name,
  Q parent above -> keep name = true ->
  Q (path_join parent name) (above ++ [name]).

Lemma walk_entry_invariant (e : entry) :
  forall parent above,
    Q parent above ->
    Forall (fun t => Q (dirpath t) (below_root t))
           (walk_entry keep parent above e).
Proof using Q_step.
  induction e as [n file|n entries IH] using entry_nested_ind;
    intros parent above HQ; [constructor|].
  simpl. destruct (keep n) eqn:Hkeep; [|constructor].
  pose proof (Q_step parent above n HQ Hkeep) as Hhere.
  constructor; [exact Hhere|].
  apply List.Forall_forall. intros t Hin. apply in_flat_map in Hin.
  destruct Hin as [c [Hc Ht]].
  rewrite List.Forall_forall in IH. specialize (IH c Hc _ _ Hhere).
  rewrite List.Forall_forall in IH. apply (IH t Ht).
Qed.

Lemma os_walk_invariant (top : string) (entries : list entry) :
  Q top [] ->
  Forall (fun t => Q (dirpath t) (below_root t)) (os_walk keep top entries).
Proof using Q_step.
  intros HQ. unfold os_walk. constructor; [exact HQ|].
  apply List.Forall_forall. intros t Hin. apply in_flat_map in Hin.
  destruct Hin as [c [_ Ht]].
  pose proof (walk_entry_invariant c top [] HQ) as H.
  rewrite List.Forall_forall in H. apply (H t Ht).
Qed.
End WalkInvariant.

(** A file the loop gets to comes from one step of the walk. *)
Lemma visited_files_member (keep skip : string -> bool) (root_dir : string)
    (entries : list entry) (v : visited) :
  In v (visited_files keep skip root_dir entries) ->
  exists t filename,
    In t (os_walk keep root_dir entries)
    /\ relative v = below_root t ++ [filename]
    /\ file_path v = path_join (dirpath t) filename
    /\ skip filename = false.
Proof.
  unfold visited_files. intros Hin. apply in_flat_map in Hin.
  destruct Hin as [t [Ht Hv]]. unfold visit_files in Hv.
  apply in_flat_map in Hv. destruct Hv as [[filename file] [_ Hv]].
  destruct (skip filename) eqn:Hskip; [contradiction|].
  destruct Hv as [<-|[]]. exists t, filename. repeat split; assumption.
Qed.

Lemma keep_dir_false_no_mention (str_lower : string -> string) (d : string) :
  FilesOnly.keep_dir str_lower false d = true ->
  FilesOnly.mentions_test_or_mock str_lower d = false.
Proof.
  unfold FilesOnly.keep_dir. simpl. intros H. apply andb_true_iff in H.
  destruct H as [_ H]. apply negb_true_iff in H. exact H.
Qed.

Lemma skip_file_false_no_mention (str_lower : string -> string) (f : string) :
  FilesOnly.skip_file str_lower false f = false ->
  FilesOnly.mentions_test_or_mock str_lower f = false.
Proof.
  unfold FilesOnly.skip_file. simpl. intros H. apply orb_false_iff in H.
  apply H.
Qed.

(** X14: without [--include-tests], no name on the path of a visited file,
    from the root down to the file itself, holds "test" or "mock" in any
    mix of upper and lower case. *)
Theorem no_test_or_mock_on_path
    (str_lower : string -> string) (root_dir : string) (entries : list entry) :
  Forall (fun v =>
            Forall (fun name => FilesOnly.mentions_test_or_mock str_lower name = false)
                   (relative v))
         (visited_files (FilesOnly.keep_dir str_lower false) (FilesOnly.skip_file str_lower false)
            root_dir entries).
Proof.
  apply List.Forall_forall. intros v Hin.
  apply visited_files_member in Hin.
  destruct Hin as [t [filename [Ht [Hrel [_ Hskip]]]]].
  rewrite Hrel. apply Forall_app. split.
  - assert (H : Forall
                 (fun t =>
                    Forall (fun name =>
                              FilesOnly.mentions_test_or_mock str_lower name = false)
                           (below_root t))
                 (os_walk (FilesOnly.keep_dir str_lower false) root_dir entries)).
    { apply (os_walk_invariant (FilesOnly.keep_dir str_lower false)
               (fun _ above =>
                  Forall (fun name =>
                            FilesOnly.mentions_test_or_mock str_lower name = false)
                         above)); [|constructor].
      intros parent above name Habove Hkeep. apply Forall_app.
      split; [exact Habove|]. constructor; [|constructor].
      apply keep_dir_false_no_mention. exact Hkeep. }
    rewrite List.Forall_forall in H. apply (H t Ht).
  - constructor; [|constructor].
    apply skip_file_false_no_mention. exact Hskip.
Qed.

Lemma keep_dir_not_excluded (str_lower : string -> string) 
    (include_tests : bool) (d : string) :
  FilesOnly.keep_dir str_lower include_tests d = true ->
  ~ In d [".git"; ".cache"; "build"; "install"].
Proof.
  unfold FilesOnly.keep_dir. intros H Hin. apply andb_true_iff in H.
  destruct H as [H _]. apply negb_true_iff in H.
  assert (Hex : existsb (String.eqb d) [".git"; ".cache"; "build"; "install"]
                = true).
  { apply existsb_exists. exists d. split; [exact Hin|apply String.eqb_refl]. }
  congruence.
Qed.

(** X15: with or without [--include-tests], no visited file lies below a
    directory named [.git], [.cache], [build] or [install], at any depth
    under the root. *)
Theorem excluded_directories_not_entered
    (str_lower : string -> string) 
    (include_tests : bool) (root_dir : string) (entries : list entry) :
  Forall (fun v =>
            forall d, In d (removelast (relative v)) ->
                      ~ In d [".git"; ".cache"; "build"; "install"])
         (visited_files (FilesOnly.keep_dir str_lower include_tests)
            (FilesOnly.skip_file str_lower include_tests) root_dir entries).
Proof.
  apply List.Forall_forall. intros v Hin d Hd.
  apply visited_files_member in Hin.
  destruct Hin as [t [filename [Ht [Hrel _]]]].
  rewrite Hrel, removelast_last in Hd.
  assert (H : Forall
               (fun t =>
                  Forall (fun name =>
                            FilesOnly.keep_dir str_lower include_tests name = true)
                         (below_root t))
               (os_walk (FilesOnly.keep_dir str_lower include_tests) root_dir entries)).
  { apply (os_walk_invariant (FilesOnly.keep_dir str_lower include_tests)
             (fun _ above =>
                Forall (fun name =>
                          FilesOnly.keep_dir str_lower include_tests name = true)
                       above)); [|constructor].
    intros parent above name Habove Hkeep. apply Forall_app.
    split; [exact Habove|]. constructor; [exact Hkeep|constructor]. }
  rewrite List.Forall_forall in H. specialize (H t Ht).
  rewrite List.Forall_forall in H.
  apply (keep_dir_not_excluded str_lower include_tests d). apply H. exact Hd.
Qed.

(** X16: in either script, the path a visited file is opened under is the
    root joined with the names of its relative path, one after the other: the
    heading of a section names the file whose content follows it. *)
Theorem file_path_follows_relative
    (keep skip : string -> bool) (root_dir : string) (entries : list entry) :
  Forall (fun v => file_path v = fold_left path_join (relative v) root_dir)
         (visited_files keep skip root_dir entries).
Proof.
  apply List.Forall_forall. intros v Hin.
  apply visited_files_member in Hin.
  destruct Hin as [t [filename [Ht [Hrel [Hpath _]]]]].
  rewrite Hrel, Hpath, fold_left_app. simpl. f_equal.
  assert (H : Forall
               (fun t =>
                  dirpath t = fold_left path_join (below_root t) root_dir)
               (os_walk keep root_dir entries)).
  { apply (os_walk_invariant keep
             (fun parent above =>
                parent = fold_left path_join above root_dir));
      [|reflexivity].
    intros parent above name Hparent _.
    rewrite fold_left_app. simpl. rewrite Hparent. reflexivity. }
  rewrite List.Forall_forall in H. apply (H t Ht).
Qed.

(** ** Files that cannot be read *)

Lemma omap_flat_map {A B C : Type} (g : B -> option C) (f : A -> list B)
    (l : list A) :
  omap g (flat_map f l) = flat_map (fun x => omap g (f x)) l.
Proof.
  induction l as [|x l IH]; [reflexivity|].
  simpl. rewrite omap_app, IH. reflexivity.
Qed.

Lemma sections_without_unreadable (skip : string -> bool) (here : string)
    (names : list string) (entries : list entry) :
  omap section_of
    (visit_files skip
       (mk_triple here names (files_in (flat_map without_unreadable entries))))
  = omap section_of
      (visit_files skip (mk_triple here names (files_in entries))).
Proof.
  unfold visit_files, files_in. simpl.
  induction entries as [|e rest IH]; [reflexivity|].
  simpl. rewrite !flat_map_app, !omap_app, IH. f_equal.
  destruct e as [n [content|err]|n sub]; simpl; try reflexivity.
  destruct (skip n); reflexivity.
Qed.

Lemma walk_entry_without_unreadable (keep skip : string -> bool) (e : entry) :
  forall parent above,
    flat_map (fun t => omap section_of (visit_files skip t))
      (flat_map (walk_entry keep parent above) (without_unreadable e))
    = flat_map (fun t => omap section_of (visit_files skip t))
        (walk_entry keep parent above e).
Proof.
  induction e as [n file|n entries IH] using entry_nested_ind;
    intros parent above.
  - destruct file; reflexivity.
  - simpl. rewrite app_nil_r. destruct (keep n); [|reflexivity].
    simpl. rewrite sections_without_unreadable. f_equal.
    rewrite (flat_map_flat_map without_unreadable).
    rewrite !flat_map_flat_map.
    apply flat_map_ext_Forall.
    eapply Forall_impl; [exact IH|]. intros c Hc. apply Hc.
Qed.

Lemma one_line_per_visited_file (vs : list visited) :
  length (omap section_of vs) + length (omap error_of vs) = length vs.
Proof.
  induction vs as [|[rel path [content|err]] vs IH]; [reflexivity| |];
    cbn; cbn in IH; lia.
Qed.

(** X17: in either script a file that cannot be read costs its own section
    and nothing else: the artifact is the one of the same directory without
    the unreadable files, and every visited file gives one section or one
    error line. *)
Theorem unreadable_files_leave_artifact
    (keep skip : string -> bool) (root_dir : string) (entries : list entry) :
  artifact (visited_files keep skip root_dir
              (flat_map without_unreadable entries))
  = artifact (visited_files keep skip root_dir entries)
  /\ length (omap section_of (visited_files keep skip root_dir entries))
     + length (omap error_of (visited_files keep skip root_dir entries))
     = length (visited_files keep skip root_dir entries).
Proof.
  split; [|apply one_line_per_visited_file].
  unfold artifact, visited_files, os_walk. f_equal.
  rewrite !omap_flat_map. simpl.
  rewrite sections_without_unreadable. f_equal.
  rewrite (flat_map_flat_map without_unreadable).
  rewrite !flat_map_flat_map.
  apply flat_map_ext. intros c.
  apply walk_entry_without_unreadable.
Qed.

(** * Substrings *)

Lemma prefix_append (needle : string) :
  forall s,
    String.prefix needle s = true <-> exists post, s = (needle ++ post)%string.
Proof.
  induction needle as [|a needle IH]; intros s.
  - split; [intros _; exists s; reflexivity|intros _; destruct s; reflexivity].
  - destruct s as [|b s]; simpl.
    + split; [discriminate|intros [post H]; discriminate].
    + destruct (Ascii.ascii_dec a b) as [->|Hne].
      * rewrite IH. split; intros [post H]; exists post.
        -- rewrite H. reflexivity.
        -- injection H as H. exact H.
      * split; [discriminate|].
        intros [post H]. injection H as Hab _. congruence.
Qed.

Lemma contains_substring (needle s : string) :
  contains needle s = true
  <-> exists pre post, s = (pre ++ needle ++ post)%string.
Proof.
  induction s as [|c s IH].
  - cbn [contains]. rewrite orb_false_r, prefix_append. split.
    + intros [post H]. exists EmptyString, post. exact H.
    + intros [pre [post H]]. destruct pre as [|c pre]; [|discriminate].
      exists post. exact H.
  - cbn [contains]. rewrite orb_true_iff, IH, prefix_append. split.
    + intros [[post H]|[pre [post H]]].
      * exists EmptyString, post. exact H.
      * exists (String c pre), post. rewrite H. reflexivity.
    + intros [pre [post H]]. destruct pre as [|c' pre].
      * left. exists post. exact H.
      * right. injection H as _ H. exists pre, post. exact H.
Qed.
